(** * EV Range Estimator: a shallow embedding of the Python sources

    The development follows the layout of the repository: one Rocq module per
    Python module ([utils], [vehicle_data], [physics_models],
    [user_interface], [main]), then the properties of the specification.

    Number model.  The physics code computes on Python floats.  The core
    functions are embedded over the real numbers [R]: a finite float is read
    as the real it denotes and [+], [*], [/], [**], [math.sin], [math.atan]
    as the exact operations (no rounding, no overflow).  What Python does
    beyond plain arithmetic is kept: a division whose divisor is zero raises
    [ZeroDivisionError], so every function that divides returns a [result].
    The input layer, where the special float values matter (the text typed at
    a prompt may parse to [nan] or [inf]), is embedded over [pyfloat].

    Module [binary64] embeds the same functions a second time over IEEE 754
    binary64 floats, with rounding, infinities and [nan], for the properties
    on which exact and rounded arithmetic differ.  [math.sin], [math.atan]
    and the float power come from the C library and are parameters there. *)

From Stdlib Require Import Reals Lra Psatz List Bool.
From Stdlib Require Import Ascii String.
From Stdlib Require Floats.
Import ListNotations.

Open Scope R_scope.

(** ** Exceptions and results *)

(** The error kinds the specification names (section 7).  No function of the
    sources constructs one of them; they are declared so that the claims about
    them can be stated against the code. *)
Inductive error_kind : Type :=
  | InvalidSpeed
  | InvalidEfficiency
  | NonPositiveConsumption
  | InvalidSpec.

(** The exceptions a run can end with: Python's own [ZeroDivisionError]
    (float or int division by zero), [OverflowError] (a float power whose
    result is out of range), [EOFError] ([input()] at the end of the standard
    input), and the specification's named precondition errors. *)
Inductive exn : Type :=
  | ZeroDivisionError
  | OverflowError
  | EOFError
  | PreconditionError (k : error_kind).

Inductive result (A : Type) : Type :=
  | Ok (a : A)
  | Raise (e : exn).

Arguments Ok {A} a.
Arguments Raise {A} e.

Definition bind {A B : Type} (m : result A) (k : A -> result B) : result B :=
  match m with
  | Ok a => k a
  | Raise e => Raise e
  end.

Notation "x <- m ;; k" := (bind m (fun x => k))
  (at level 61, m at next level, right associativity).

(** [returns m] holds when the call comes back with a value. *)
Definition returns {A : Type} (m : result A) : Prop := exists a, m = Ok a.

(** Python's true division [x / y]. *)
Definition truediv (x y : R) : result R :=
  if Req_dec_T y 0 then Raise ZeroDivisionError else Ok (x / y).

(** ** Python floats with their special values *)

(** A Python float as the input layer sees it: a finite number, an infinity
    or [nan].  [float(user_input)] may produce any of them (["inf"], ["-inf"]
    and ["nan"] are accepted spellings). *)
Inductive pyfloat : Type :=
  | Fin (x : R)
  | PosInf
  | NegInf
  | NaN.

(** The comparison [a < b] of two floats; every comparison with [nan] is
    false.  [a > b] is [py_lt b a]. *)
Definition py_lt (a b : pyfloat) : bool :=
  match a, b with
  | NaN, _ | _, NaN => false
  | _, NegInf => false
  | NegInf, _ => true
  | PosInf, _ => false
  | Fin _, PosInf => true
  | Fin x, Fin y => if Rlt_dec x y then true else false
  end.

Definition py_gt (a b : pyfloat) : bool := py_lt b a.

Definition is_negative (x : R) : bool := if Rlt_dec x 0 then true else false.

(** True division on floats: a zero divisor raises whatever the dividend is;
    otherwise the special values follow IEEE 754 (the sign of a zero quotient
    is not tracked). *)
Definition py_truediv (a b : pyfloat) : result pyfloat :=
  match b with
  | Fin y =>
      if Req_dec_T y 0 then Raise ZeroDivisionError
      else match a with
           | Fin x => Ok (Fin (x / y))
           | PosInf => Ok (if is_negative y then NegInf else PosInf)
           | NegInf => Ok (if is_negative y then PosInf else NegInf)
           | NaN => Ok NaN
           end
  | PosInf | NegInf =>
      match a with
      | Fin _ => Ok (Fin 0)
      | _ => Ok NaN
      end
  | NaN => Ok NaN
  end.

(** The comparison [a <= b]; false as soon as one side is [nan]. *)
Definition py_le (a b : pyfloat) : bool :=
  match a, b with
  | NaN, _ | _, NaN => false
  | NegInf, _ => true
  | _, NegInf => false
  | _, PosInf => true
  | PosInf, _ => false
  | Fin x, Fin y => if Rle_dec x y then true else false
  end.

(** ** utils.py *)
Module utils.

Definition convert_kmh_to_ms (speed_kmh : R) : result R :=
  truediv speed_kmh 3.6.

Definition convert_ms_to_kmh (speed_ms : R) : R :=
  speed_ms * 3.6.

Definition convert_degrees_to_radians (degrees : R) : result R :=
  truediv (degrees * PI) 180.

Definition convert_slope_percent_to_radians (slope_percent : R) : result R :=
  grade <- truediv slope_percent 100 ;;
  Ok (atan grade).

(** The argument is a float, so the [isinstance] test passes; the messages
    printed on the [False] branches are not modelled.  [value <= 0] is false
    for [nan], which is therefore reported as valid, as is [inf]. *)
Definition validate_positive_number (value : pyfloat) : bool :=
  if py_le value (Fin 0) then false else true.

Definition convert_watts_to_kwh (power_watts : R) : result R :=
  truediv power_watts 1000.

End utils.

(** ** vehicle_data.py *)
Module vehicle_data.

Definition GRAVITY : R := 9.81.
Definition AIR_DENSITY : R := 1.225.

Definition EFFICIENCY_DRIVETRAIN : R := 0.88.
Definition EFFICIENCY_REGEN : R := 0.65.
Definition BATTERY_USABLE_PERCENT : R := 0.90.

(** The dictionaries of vehicle specifications, with their fixed keys.  The
    ['name'] entry of the presets is only printed and is left out. *)
Record vehicle : Type := mk_vehicle {
  mass : R;
  drag_coefficient : R;
  frontal_area : R;
  rolling_resistance : R;
  battery_capacity : R
}.

Definition COMPACT_EV : vehicle :=
  {| mass := 1500; drag_coefficient := 0.28; frontal_area := 2.2;
     rolling_resistance := 0.010; battery_capacity := 50 |}.

Definition SUV_EV : vehicle :=
  {| mass := 2200; drag_coefficient := 0.32; frontal_area := 2.8;
     rolling_resistance := 0.012; battery_capacity := 80 |}.

Definition SPORTS_EV : vehicle :=
  {| mass := 1800; drag_coefficient := 0.24; frontal_area := 2.0;
     rolling_resistance := 0.009; battery_capacity := 75 |}.

End vehicle_data.

(** ** physics_models.py *)
Module physics_models.

Definition calculate_rolling_resistance (mass Crr g : R) : R :=
  mass * Crr * g.

Definition calculate_drag_force (speed_ms Cd frontal_area air_density : R) : R :=
  0.5 * Cd * frontal_area * air_density * speed_ms ^ 2.

Definition calculate_gradient_force (mass slope_angle_rad g : R) : R :=
  mass * g * sin slope_angle_rad.

Definition calculate_total_resistance
    (rolling_force drag_force gradient_force : R) : R :=
  rolling_force + drag_force + gradient_force.

Definition calculate_power_at_wheels (total_force speed_ms : R) : R :=
  total_force * speed_ms.

Definition calculate_power_from_battery
    (power_at_wheels drivetrain_efficiency : R) : result R :=
  truediv power_at_wheels drivetrain_efficiency.

Definition calculate_energy_per_km (power_battery_watts speed_ms : R) : result R :=
  power_kwh <- utils.convert_watts_to_kwh power_battery_watts ;;
  let speed_km := utils.convert_ms_to_kmh speed_ms in
  truediv power_kwh speed_km.

Definition calculate_usable_battery_energy
    (battery_capacity_kwh usable_percent : R) : R :=
  battery_capacity_kwh * usable_percent.

Definition calculate_range (usable_energy_kwh energy_per_km : R) : result R :=
  truediv usable_energy_kwh energy_per_km.

End physics_models.

(** ** user_interface.py *)

(** One line typed at a prompt, by what the code does with it: the empty
    string, a string that [float()] converts to the float [v], or a string on
    which [float()] raises [ValueError]. *)
Inductive line : Type :=
  | Blank
  | Number (v : pyfloat)
  | Text.

(** [float(user_input)]; [None] stands for the [ValueError] that the caller
    catches ([float("")] raises it too). *)
Definition float (user_input : line) : option pyfloat :=
  match user_input with
  | Number v => Some v
  | Blank | Text => None
  end.

(** Dictionaries with fixed keys, over the number type of the layer that
    builds them. *)
Record driving_conditions (num : Type) : Type := mk_conditions {
  speed_kmh : num;
  slope_percent : num
}.

Record system_params (num : Type) : Type := mk_system {
  drivetrain_efficiency : num;
  battery_usable_percent : num
}.

Record custom_vehicle : Type := mk_custom {
  custom_battery_capacity : pyfloat;
  custom_mass : pyfloat;
  custom_drag_coefficient : pyfloat;
  custom_frontal_area : pyfloat;
  custom_rolling_resistance : pyfloat
}.

Arguments mk_conditions {num} _ _.
Arguments speed_kmh {num} _.
Arguments slope_percent {num} _.
Arguments mk_system {num} _ _.
Arguments drivetrain_efficiency {num} _.
Arguments battery_usable_percent {num} _.

(** Interactive code: the lines still to be read from the standard input are
    threaded through; [input()] on an exhausted input raises [EOFError].
    What is printed is not modelled. *)
Definition io (A : Type) : Type := list line -> result (A * list line).

Definition io_ret {A : Type} (a : A) : io A := fun stdin => Ok (a, stdin).

Definition io_bind {A B : Type} (m : io A) (k : A -> io B) : io B :=
  fun stdin =>
    match m stdin with
    | Ok (a, rest) => k a rest
    | Raise e => Raise e
    end.

Definition io_lift {A : Type} (m : result A) : io A :=
  fun stdin =>
    match m with
    | Ok a => Ok (a, stdin)
    | Raise e => Raise e
    end.

Notation "x <~ m ;; k" := (io_bind m (fun x => k))
  (at level 61, m at next level, right associativity).

(** [str.lower()] on the characters the answers are compared with: the
    letters [A] to [Z] become [a] to [z], every other byte is kept.  (No
    character outside ASCII lowers to one of the letters of ["yes"] or
    ["no"], so the byte-wise reading decides the membership tests as Python
    does.) *)
Definition lower_char (c : ascii) : ascii :=
  let n := nat_of_ascii c in
  if (Nat.leb 65 n && Nat.leb n 90)%bool then ascii_of_nat (n + 32) else c.

Fixpoint lower (s : string) : string :=
  match s with
  | EmptyString => EmptyString
  | String c rest => String (lower_char c) (lower rest)
  end.

(** [s in l] for a list of strings. *)
Definition member (s : string) (l : list string) : bool :=
  existsb (String.eqb s) l.

Module user_interface.

(** [value < min_value] and [value > max_value], guarded by [is not None]. *)
Definition below (min_value : option pyfloat) (value : pyfloat) : bool :=
  match min_value with
  | Some lo => py_lt value lo
  | None => false
  end.

Definition above (max_value : option pyfloat) (value : pyfloat) : bool :=
  match max_value with
  | Some hi => py_gt value hi
  | None => false
  end.

(** The [while True] loop reads one line per round, so it is a recursion on
    the lines left. *)
Fixpoint get_user_input (min_value max_value default_value : option pyfloat)
    (stdin : list line) : result (pyfloat * list line) :=
  match stdin with
  | [] => Raise EOFError
  | user_input :: rest =>
      match user_input, default_value with
      | Blank, Some default => Ok (default, rest)
      | _, _ =>
          match float user_input with
          | Some value =>
              if below min_value value then
                get_user_input min_value max_value default_value rest
              else if above max_value value then
                get_user_input min_value max_value default_value rest
              else Ok (value, rest)
          | None => get_user_input min_value max_value default_value rest
          end
      end
  end.

Definition _get_custom_vehicle : io custom_vehicle :=
  battery <~ get_user_input (Some (Fin 10)) (Some (Fin 200)) None ;;
  mass <~ get_user_input (Some (Fin 800)) (Some (Fin 3000)) None ;;
  cd <~ get_user_input (Some (Fin 0.15)) (Some (Fin 0.50)) (Some (Fin 0.28)) ;;
  area <~ get_user_input (Some (Fin 1.5)) (Some (Fin 4.0)) (Some (Fin 2.2)) ;;
  crr <~ get_user_input (Some (Fin 0.005)) (Some (Fin 0.020)) (Some (Fin 0.010)) ;;
  io_ret {| custom_battery_capacity := battery;
            custom_mass := mass;
            custom_drag_coefficient := cd;
            custom_frontal_area := area;
            custom_rolling_resistance := crr |}.

Definition get_driving_conditions : io (driving_conditions pyfloat) :=
  speed_kmh <~ get_user_input (Some (Fin 10)) (Some (Fin 200)) None ;;
  slope_percent <~ get_user_input (Some (Fin (-15))) (Some (Fin 15)) (Some (Fin 0)) ;;
  io_ret (mk_conditions speed_kmh slope_percent).

Definition get_system_parameters : io (system_params pyfloat) :=
  efficiency <~ get_user_input (Some (Fin 70)) (Some (Fin 98)) (Some (Fin 88)) ;;
  usable <~ get_user_input (Some (Fin 70)) (Some (Fin 100)) (Some (Fin 90)) ;;
  drivetrain <~ io_lift (py_truediv efficiency (Fin 100)) ;;
  battery_usable <~ io_lift (py_truediv usable (Fin 100)) ;;
  io_ret (mk_system drivetrain battery_usable).

(** The two menus compare the text of the line, so their standard input is
    a list of strings. *)
Fixpoint _get_preset_vehicle (stdin : list string)
    : result (vehicle_data.vehicle * list string) :=
  match stdin with
  | [] => Raise EOFError
  | choice :: rest =>
      if String.eqb choice "1" then Ok (vehicle_data.COMPACT_EV, rest)
      else if String.eqb choice "2" then Ok (vehicle_data.SUV_EV, rest)
      else if String.eqb choice "3" then Ok (vehicle_data.SPORTS_EV, rest)
      else _get_preset_vehicle rest
  end.

Fixpoint ask_continue (stdin : list string) : result (bool * list string) :=
  match stdin with
  | [] => Raise EOFError
  | response :: rest =>
      let response_lower := lower response in
      if member response_lower ["yes"; "y"]%string then Ok (true, rest)
      else if member response_lower ["no"; "n"]%string then Ok (false, rest)
      else ask_continue rest
  end.

(** What one round of [get_user_input]'s loop makes of a line: the value it
    returns, or [None] when it prompts again. *)
Definition accepted (min_value max_value default_value : option pyfloat)
    (user_input : line) : option pyfloat :=
  match user_input, default_value with
  | Blank, Some default => Some default
  | _, _ =>
      match float user_input with
      | Some value =>
          if below min_value value then None
          else if above max_value value then None
          else Some value
      | None => None
      end
  end.

(** What one round of [ask_continue]'s loop makes of a line. *)
Definition answer (response : string) : option bool :=
  if member (lower response) ["yes"; "y"]%string then Some true
  else if member (lower response) ["no"; "n"]%string then Some false
  else None.

End user_interface.

(** ** main.py *)
Module main.

Import vehicle_data.

(** The local variables of one round of [main]'s loop, from the unit
    conversions to [range_km]. *)
Record locals : Type := mk_locals {
  speed_ms : R;
  slope_rad : R;
  rolling : R;
  drag : R;
  gradient : R;
  total_force : R;
  power_wheels : R;
  power_battery : R;
  energy_per_km : R;
  usable_energy : R;
  range_km : R
}.

(** Lines 27 to 81 of [main]: the computation between the three input calls
    and [display_results], in the order of the statements. *)
Definition pipeline (vehicle_params : vehicle)
    (conditions : driving_conditions R) (system : system_params R)
    : result locals :=
  speed_ms <- utils.convert_kmh_to_ms (speed_kmh conditions) ;;
  slope_rad <- utils.convert_slope_percent_to_radians (slope_percent conditions) ;;
  let rolling := physics_models.calculate_rolling_resistance
                   (mass vehicle_params) (rolling_resistance vehicle_params) GRAVITY in
  let drag := physics_models.calculate_drag_force
                speed_ms (drag_coefficient vehicle_params)
                (frontal_area vehicle_params) AIR_DENSITY in
  let gradient := physics_models.calculate_gradient_force
                    (mass vehicle_params) slope_rad GRAVITY in
  let total_force := physics_models.calculate_total_resistance rolling drag gradient in
  let power_wheels := physics_models.calculate_power_at_wheels total_force speed_ms in
  power_battery <- physics_models.calculate_power_from_battery
                     power_wheels (drivetrain_efficiency system) ;;
  energy_per_km <- physics_models.calculate_energy_per_km power_battery speed_ms ;;
  let usable_energy := physics_models.calculate_usable_battery_energy
                         (battery_capacity vehicle_params)
                         (battery_usable_percent system) in
  range_km <- physics_models.calculate_range usable_energy energy_per_km ;;
  Ok (mk_locals speed_ms slope_rad rolling drag gradient total_force
        power_wheels power_battery energy_per_km usable_energy range_km).

End main.

(** ** The core on binary64 floats

    Python's [float] is the IEEE 754 binary64 type and [+], [*] and [/] round
    to nearest, as the primitive operations of [PrimFloat] do.  A division
    raises when its divisor compares equal to zero, [-0.0] included.  The
    literals are the floats nearest to the decimals written in the source. *)
Module binary64.

Import PrimFloat.

#[local] Set Warnings "-inexact-float".

Definition truediv (x y : float) : result float :=
  if (y =? 0)%float then Raise ZeroDivisionError else Ok (x / y)%float.

(** utils.py *)
Definition convert_kmh_to_ms (speed_kmh : float) : result float :=
  truediv speed_kmh 3.6.

Definition convert_ms_to_kmh (speed_ms : float) : float :=
  (speed_ms * 3.6)%float.

Definition convert_watts_to_kwh (power_watts : float) : result float :=
  truediv power_watts 1000.

(** vehicle_data.py *)
Definition GRAVITY : float := 9.81.
Definition AIR_DENSITY : float := 1.225.

(** physics_models.py *)
Definition calculate_rolling_resistance (mass Crr g : float) : float :=
  (mass * Crr * g)%float.

Definition calculate_total_resistance
    (rolling_force drag_force gradient_force : float) : float :=
  (rolling_force + drag_force + gradient_force)%float.

Definition calculate_power_at_wheels (total_force speed_ms : float) : float :=
  (total_force * speed_ms)%float.

Definition calculate_power_from_battery
    (power_at_wheels drivetrain_efficiency : float) : result float :=
  truediv power_at_wheels drivetrain_efficiency.

Definition calculate_energy_per_km
    (power_battery_watts speed_ms : float) : result float :=
  power_kwh <- convert_watts_to_kwh power_battery_watts ;;
  let speed_km := convert_ms_to_kmh speed_ms in
  truediv power_kwh speed_km.

Definition calculate_usable_battery_energy
    (battery_capacity_kwh usable_percent : float) : float :=
  (battery_capacity_kwh * usable_percent)%float.

Definition calculate_range (usable_energy_kwh energy_per_km : float)
    : result float :=
  truediv usable_energy_kwh energy_per_km.

Record locals : Type := mk_locals {
  speed_ms : float;
  slope_rad : float;
  rolling : float;
  drag : float;
  gradient : float;
  total_force : float;
  power_wheels : float;
  power_battery : float;
  energy_per_km : float;
  usable_energy : float;
  range_km : float
}.

(** The functions that call the C library, over whatever it computes:
    [math_sin] and [math_atan] are [math.sin] and [math.atan], and
    [float_pow x y] is [x ** y], which raises [OverflowError] when the result
    is out of range. *)
Section Libm.

Variable math_sin : float -> float.
Variable math_atan : float -> float.
Variable float_pow : float -> float -> result float.

Definition convert_slope_percent_to_radians (slope_percent : float)
    : result float :=
  grade <- truediv slope_percent 100 ;;
  Ok (math_atan grade).

Definition calculate_drag_force
    (speed_ms Cd frontal_area air_density : float) : result float :=
  square <- float_pow speed_ms 2 ;;
  Ok (0.5 * Cd * frontal_area * air_density * square)%float.

Definition calculate_gradient_force (mass slope_angle_rad g : float) : float :=
  (mass * g * math_sin slope_angle_rad)%float.

(** Lines 27 to 81 of [main], on the values of the three dictionaries. *)
Definition pipeline
    (mass drag_coefficient frontal_area rolling_resistance battery_capacity
       speed_kmh slope_percent drivetrain_efficiency battery_usable_percent
       : float) : result locals :=
  speed_ms <- convert_kmh_to_ms speed_kmh ;;
  slope_rad <- convert_slope_percent_to_radians slope_percent ;;
  let rolling := calculate_rolling_resistance mass rolling_resistance GRAVITY in
  drag <- calculate_drag_force speed_ms drag_coefficient frontal_area
            AIR_DENSITY ;;
  let gradient := calculate_gradient_force mass slope_rad GRAVITY in
  let total_force := calculate_total_resistance rolling drag gradient in
  let power_wheels := calculate_power_at_wheels total_force speed_ms in
  power_battery <- calculate_power_from_battery power_wheels
                     drivetrain_efficiency ;;
  energy_per_km <- calculate_energy_per_km power_battery speed_ms ;;
  let usable_energy := calculate_usable_battery_energy battery_capacity
                         battery_usable_percent in
  range_km <- calculate_range usable_energy energy_per_km ;;
  Ok (mk_locals speed_ms slope_rad rolling drag gradient total_force
        power_wheels power_battery energy_per_km usable_energy range_km).

End Libm.

End binary64.

(** ** The formulas of the specification

    Section 4 of the specification gives each stage of [computeRange] as a
    formula over the reals.  [spec.computeRange] collects them, written from
    the specification's text, as the values the pipeline is compared with. *)
Module spec.

Import vehicle_data.

Section Formulas.

Variable vehicle_params : vehicle.
Variable conditions : driving_conditions R.
Variable system : system_params R.

Definition toMetersPerSecond : R := speed_kmh conditions / 3.6.

Definition toRadians : R := atan (slope_percent conditions / 100).

Definition rollingResistance : R :=
  mass vehicle_params * rolling_resistance vehicle_params * GRAVITY.

Definition dragForce : R :=
  0.5 * drag_coefficient vehicle_params * frontal_area vehicle_params
  * AIR_DENSITY * toMetersPerSecond ^ 2.

Definition gradientForce : R := mass vehicle_params * GRAVITY * sin toRadians.

Definition totalResistance : R := rollingResistance + dragForce + gradientForce.

Definition powerAtWheels : R := totalResistance * toMetersPerSecond.

Definition powerFromBattery : R := powerAtWheels / drivetrain_efficiency system.

Definition energyPerKm : R :=
  powerFromBattery / 1000 / (toMetersPerSecond * 3.6).

Definition usableBatteryEnergy : R :=
  battery_capacity vehicle_params * battery_usable_percent system.

Definition estimateRange : R := usableBatteryEnergy / energyPerKm.

Definition computeRange : main.locals :=
  main.mk_locals toMetersPerSecond toRadians rollingResistance dragForce
    gradientForce totalResistance powerAtWheels powerFromBattery energyPerKm
    usableBatteryEnergy estimateRange.

End Formulas.

(** [close tol expected actual]: [actual] is [expected] up to the relative
    tolerance [tol]. *)
Definition close (tol expected actual : R) : Prop :=
  Rabs (actual - expected) <= tol * Rabs expected.

(** The figures of an end-to-end scenario, each met up to [tol]. *)
Definition scenario_figures (tol : R)
    (rolling drag gradient total power_wheels power_battery energy_per_km
       usable_energy range_km : R) (l : main.locals) : Prop :=
  close tol rolling (main.rolling l)
  /\ close tol drag (main.drag l)
  /\ close tol gradient (main.gradient l)
  /\ close tol total (main.total_force l)
  /\ close tol power_wheels (main.power_wheels l)
  /\ close tol power_battery (main.power_battery l)
  /\ close tol energy_per_km (main.energy_per_km l)
  /\ close tol usable_energy (main.usable_energy l)
  /\ close tol range_km (main.range_km l).

(** The inputs of scenario A: the compact preset at 100 km/h on a flat road
    with the default efficiency settings. *)
Definition scenario_A_conditions : driving_conditions R := mk_conditions 100 0.
Definition scenario_A_system : system_params R := mk_system 0.88 0.90.

End spec.

(** [within_bounds lo hi v]: the float [v] is a number between [lo] and
    [hi]; an infinity or [nan] is not. *)
Definition within_bounds (lo hi : R) (v : pyfloat) : Prop :=
  match v with
  | Fin x => lo <= x <= hi
  | PosInf | NegInf | NaN => False
  end.

(** Unfolds the formulas at the inputs of a flat-road scenario. *)
Ltac unfold_formulas :=
  unfold spec.estimateRange, spec.usableBatteryEnergy, spec.energyPerKm,
    spec.powerFromBattery, spec.powerAtWheels, spec.totalResistance,
    spec.rollingResistance, spec.dragForce, spec.gradientForce, spec.toRadians,
    spec.toMetersPerSecond, vehicle_data.GRAVITY, vehicle_data.AIR_DENSITY;
  cbn [vehicle_data.COMPACT_EV vehicle_data.mass vehicle_data.rolling_resistance
       vehicle_data.drag_coefficient vehicle_data.frontal_area
       vehicle_data.battery_capacity speed_kmh slope_percent
       drivetrain_efficiency battery_usable_percent
       spec.scenario_A_conditions spec.scenario_A_system];
  try (replace (0 / 100) with 0 by lra; rewrite atan_0, sin_0).

(** * Properties *)

Lemma truediv_ok (x y : R) : y <> 0 -> truediv x y = Ok (x / y).
Proof.
  intros Hy. unfold truediv.
  destruct (Req_dec_T y 0) as [E | _]; [contradiction | reflexivity].
Qed.

Lemma truediv_zero (x : R) : truediv x 0 = Raise ZeroDivisionError.
Proof.
  unfold truediv.
  destruct (Req_dec_T 0 0) as [_ | N]; [reflexivity | contradiction N; reflexivity].
Qed.

(** The divisions by the literals 3.6, 100 and 1000 never raise. *)
Lemma convert_kmh_to_ms_ok (speed_kmh : R) :
  utils.convert_kmh_to_ms speed_kmh = Ok (speed_kmh / 3.6).
Proof. unfold utils.convert_kmh_to_ms. apply truediv_ok. lra. Qed.

Lemma convert_watts_to_kwh_ok (power_watts : R) :
  utils.convert_watts_to_kwh power_watts = Ok (power_watts / 1000).
Proof. unfold utils.convert_watts_to_kwh. apply truediv_ok. lra. Qed.

Lemma convert_slope_percent_to_radians_ok (slope_percent : R) :
  utils.convert_slope_percent_to_radians slope_percent
  = Ok (atan (slope_percent / 100)).
Proof.
  unfold utils.convert_slope_percent_to_radians.
  rewrite truediv_ok by lra. reflexivity.
Qed.

Lemma convert_degrees_to_radians_ok (degrees : R) :
  utils.convert_degrees_to_radians degrees = Ok (degrees * PI / 180).
Proof. unfold utils.convert_degrees_to_radians. apply truediv_ok. lra. Qed.

Lemma calculate_energy_per_km_ok (power_battery_watts speed_ms : R) :
  speed_ms <> 0 ->
  physics_models.calculate_energy_per_km power_battery_watts speed_ms
  = Ok (power_battery_watts / 1000 / (speed_ms * 3.6)).
Proof.
  intros Hs. unfold physics_models.calculate_energy_per_km.
  rewrite convert_watts_to_kwh_ok. cbn [bind].
  unfold utils.convert_ms_to_kmh. apply truediv_ok. lra.
Qed.

(** ** Unit conversions *)

(** C5: for every real slope percentage the conversion returns, and what it
    returns is [atan (slope_percent / 100)]: the angle whose tangent is the
    grade, strictly between -PI/2 and PI/2.  It is not the degrees-to-radians
    scaling: the two differ at 100. *)
Theorem slope_percent_to_radians_is_arctangent :
  (forall slope_percent : R,
      exists angle : R,
        utils.convert_slope_percent_to_radians slope_percent = Ok angle
        /\ angle = atan (slope_percent / 100)
        /\ tan angle = slope_percent / 100
        /\ - PI / 2 < angle < PI / 2)
  /\ utils.convert_slope_percent_to_radians 100
     <> utils.convert_degrees_to_radians 100.
Proof.
  split.
  - intros s. exists (atan (s / 100)).
    rewrite convert_slope_percent_to_radians_ok.
    repeat split; try apply atan_bound. apply tan_atan.
  - rewrite convert_slope_percent_to_radians_ok, convert_degrees_to_radians_ok.
    intros E. injection E as E.
    replace (100 / 100) with 1 in E by lra.
    rewrite atan_1 in E. pose proof PI_RGT_0. lra.
Qed.

(** C6: a speed taken from m/s to km/h and back to m/s is the speed one
    started from (exactly so in real arithmetic, hence within any tolerance),
    and a slope of 0 percent is an angle of 0. *)
Theorem speed_round_trip_and_flat_slope (x : R) :
  0 <= x ->
  utils.convert_kmh_to_ms (utils.convert_ms_to_kmh x) = Ok x
  /\ utils.convert_slope_percent_to_radians 0 = Ok 0.
Proof.
  intros _. split.
  - rewrite convert_kmh_to_ms_ok. unfold utils.convert_ms_to_kmh. f_equal. lra.
  - rewrite convert_slope_percent_to_radians_ok. f_equal.
    replace (0 / 100) with 0 by lra. apply atan_0.
Qed.

Lemma speed_round_trip_and_flat_slope_witness :
  0 <= 27
  /\ utils.convert_kmh_to_ms (utils.convert_ms_to_kmh 27) = Ok 27
  /\ utils.convert_slope_percent_to_radians 0 = Ok 0.
Proof.
  split; [lra | apply (speed_round_trip_and_flat_slope 27); lra].
Defined.

(** ** Forces *)

Lemma pow2_le_compat (a b : R) : 0 <= a -> a <= b -> a ^ 2 <= b ^ 2.
Proof. intros Ha Hab. nra. Qed.

(** C7: with a positive drag coefficient, frontal area and air density, the
    drag force is [0.5 * Cd * frontal_area * air_density * speed_ms ^ 2], it
    does not decrease when a non-negative speed grows, and it is 0 at rest. *)
Theorem drag_force_formula_monotone_zero (Cd frontal_area air_density : R) :
  0 < Cd -> 0 < frontal_area -> 0 < air_density ->
  (forall speed_ms,
      physics_models.calculate_drag_force speed_ms Cd frontal_area air_density
      = 0.5 * Cd * frontal_area * air_density * (speed_ms * speed_ms))
  /\ (forall s1 s2, 0 <= s1 -> s1 <= s2 ->
        physics_models.calculate_drag_force s1 Cd frontal_area air_density
        <= physics_models.calculate_drag_force s2 Cd frontal_area air_density)
  /\ physics_models.calculate_drag_force 0 Cd frontal_area air_density = 0.
Proof.
  intros HCd HA Hrho. unfold physics_models.calculate_drag_force.
  repeat split.
  - intros s. ring.
  - intros s1 s2 H1 H12.
    apply Rmult_le_compat_l; [ | now apply pow2_le_compat].
    assert (0 < Cd * frontal_area) by now apply Rmult_lt_0_compat.
    assert (0 < Cd * frontal_area * air_density) by now apply Rmult_lt_0_compat.
    lra.
  - ring.
Qed.

Lemma drag_force_formula_monotone_zero_witness :
  (0 < 0.28 /\ 0 < 2.2 /\ 0 < 1.225)
  /\ physics_models.calculate_drag_force 10 0.28 2.2 1.225
     <= physics_models.calculate_drag_force 20 0.28 2.2 1.225
  /\ physics_models.calculate_drag_force 0 0.28 2.2 1.225 = 0.
Proof.
  destruct (drag_force_formula_monotone_zero 0.28 2.2 1.225) as (_ & Hmono & Hzero);
    try lra.
  split; [lra | split; [apply Hmono; lra | exact Hzero]].
Defined.

(** The gradient force in exact arithmetic, with the real sine: for a
    positive mass and gravity it is 0 on a flat road, strictly increasing in
    the slope angle between -PI/2 and PI/2, positive for an uphill angle and
    negative for a downhill one.  The strict order is a fact of the real
    sine only: [math.sin] returns the same float for neighbouring angles. *)
Lemma gradient_force_exact_arithmetic (m g : R) :
  0 < m -> 0 < g ->
  physics_models.calculate_gradient_force m 0 g = 0
  /\ (forall a b, - PI / 2 < a -> a < b -> b < PI / 2 ->
        physics_models.calculate_gradient_force m a g
        < physics_models.calculate_gradient_force m b g)
  /\ (forall a, 0 < a -> a < PI / 2 ->
        0 < physics_models.calculate_gradient_force m a g)
  /\ (forall a, - PI / 2 < a -> a < 0 ->
        physics_models.calculate_gradient_force m a g < 0).
Proof.
  intros Hm Hg. unfold physics_models.calculate_gradient_force.
  assert (Hmg : 0 < m * g) by now apply Rmult_lt_0_compat.
  pose proof PI_RGT_0 as Hpi.
  repeat split.
  - rewrite sin_0. ring.
  - intros a b Ha Hab Hb.
    apply Rmult_lt_compat_l; [assumption | ].
    apply sin_increasing_1; lra.
  - intros a Ha Ha'.
    apply Rmult_lt_0_compat; [assumption | ].
    apply sin_gt_0; lra.
  - intros a Ha Ha'.
    assert (Hs : sin a < 0) by (apply sin_lt_0_var; lra).
    nra.
Qed.

(** ** The pipeline against the formulas *)

Lemma energy_per_km_closed_form (total speed_ms efficiency : R) :
  speed_ms <> 0 -> efficiency <> 0 ->
  total * speed_ms / efficiency / 1000 / (speed_ms * 3.6)
  = total / (3600 * efficiency).
Proof.
  intros Hs He. replace 3.6 with (36 / 10) by lra.
  field. split; assumption.
Qed.

Lemma speed_ms_nonzero (c : driving_conditions R) :
  speed_kmh c <> 0 -> spec.toMetersPerSecond c <> 0.
Proof.
  intros H E. apply H. unfold spec.toMetersPerSecond in E. lra.
Qed.

Lemma energyPerKm_total (v : vehicle_data.vehicle) (c : driving_conditions R)
    (s : system_params R) :
  speed_kmh c <> 0 -> drivetrain_efficiency s <> 0 ->
  spec.energyPerKm v c s
  = spec.totalResistance v c / (3600 * drivetrain_efficiency s).
Proof.
  intros Hs He. unfold spec.energyPerKm, spec.powerFromBattery, spec.powerAtWheels.
  apply energy_per_km_closed_form; [now apply speed_ms_nonzero | assumption].
Qed.

Lemma energyPerKm_nonzero (v : vehicle_data.vehicle) (c : driving_conditions R)
    (s : system_params R) :
  speed_kmh c <> 0 -> drivetrain_efficiency s <> 0 ->
  spec.totalResistance v c <> 0 ->
  spec.energyPerKm v c s <> 0.
Proof.
  intros Hs He Ht. rewrite energyPerKm_total by assumption.
  intros E. apply Ht.
  apply (Rmult_eq_compat_r (3600 * drivetrain_efficiency s)) in E.
  field_simplify in E; lra.
Qed.

(** The head of the pipeline, up to the first division that can fail. *)
Lemma pipeline_unfold (v : vehicle_data.vehicle) (c : driving_conditions R)
    (s : system_params R) :
  main.pipeline v c s
  = (power_battery <- truediv (spec.powerAtWheels v c) (drivetrain_efficiency s) ;;
     energy_per_km <- physics_models.calculate_energy_per_km
                        power_battery (spec.toMetersPerSecond c) ;;
     range_km <- truediv (spec.usableBatteryEnergy v s) energy_per_km ;;
     Ok (main.mk_locals (spec.toMetersPerSecond c) (spec.toRadians c)
           (spec.rollingResistance v) (spec.dragForce v c)
           (spec.gradientForce v c) (spec.totalResistance v c)
           (spec.powerAtWheels v c) power_battery energy_per_km
           (spec.usableBatteryEnergy v s) range_km)).
Proof.
  unfold main.pipeline.
  rewrite convert_kmh_to_ms_ok, convert_slope_percent_to_radians_ok.
  reflexivity.
Qed.

Lemma pipeline_zero_efficiency (v : vehicle_data.vehicle)
    (c : driving_conditions R) (s : system_params R) :
  drivetrain_efficiency s = 0 ->
  main.pipeline v c s = Raise ZeroDivisionError.
Proof.
  intros He. rewrite pipeline_unfold, He, truediv_zero. reflexivity.
Qed.

Lemma pipeline_zero_speed (v : vehicle_data.vehicle)
    (c : driving_conditions R) (s : system_params R) :
  drivetrain_efficiency s <> 0 -> speed_kmh c = 0 ->
  main.pipeline v c s = Raise ZeroDivisionError.
Proof.
  intros He Hs. rewrite pipeline_unfold, truediv_ok by assumption. cbn [bind].
  unfold physics_models.calculate_energy_per_km.
  rewrite convert_watts_to_kwh_ok. cbn [bind].
  unfold utils.convert_ms_to_kmh, spec.toMetersPerSecond. rewrite Hs.
  replace (0 / 3.6 * 3.6) with 0 by lra.
  rewrite truediv_zero. reflexivity.
Qed.

Lemma pipeline_zero_force (v : vehicle_data.vehicle)
    (c : driving_conditions R) (s : system_params R) :
  drivetrain_efficiency s <> 0 -> speed_kmh c <> 0 ->
  spec.totalResistance v c = 0 ->
  main.pipeline v c s = Raise ZeroDivisionError.
Proof.
  intros He Hs Ht. rewrite pipeline_unfold, truediv_ok by assumption. cbn [bind].
  rewrite calculate_energy_per_km_ok by now apply speed_ms_nonzero.
  cbn [bind].
  change (spec.powerAtWheels v c / drivetrain_efficiency s / 1000
          / (spec.toMetersPerSecond c * 3.6)) with (spec.energyPerKm v c s).
  rewrite energyPerKm_total, Ht by assumption.
  unfold Rdiv at 1. rewrite Rmult_0_l, truediv_zero. reflexivity.
Qed.

Lemma pipeline_returns (v : vehicle_data.vehicle)
    (c : driving_conditions R) (s : system_params R) :
  drivetrain_efficiency s <> 0 -> speed_kmh c <> 0 ->
  spec.totalResistance v c <> 0 ->
  main.pipeline v c s = Ok (spec.computeRange v c s).
Proof.
  intros He Hs Ht. rewrite pipeline_unfold, truediv_ok by assumption. cbn [bind].
  rewrite calculate_energy_per_km_ok by now apply speed_ms_nonzero.
  cbn [bind].
  change (spec.powerAtWheels v c / drivetrain_efficiency s / 1000
          / (spec.toMetersPerSecond c * 3.6)) with (spec.energyPerKm v c s).
  rewrite truediv_ok by now apply energyPerKm_nonzero.
  reflexivity.
Qed.

(** ** Range *)

(** C8, amended: for a positive usable energy the range does not grow when
    a positive energy per km grows, and for a positive energy per km it does
    not shrink when the usable energy grows; in both cases the call
    returns. *)
Theorem range_monotone :
  (forall u e1 e2, 0 < u -> 0 < e1 -> e1 <= e2 ->
     exists r1 r2,
       physics_models.calculate_range u e1 = Ok r1
       /\ physics_models.calculate_range u e2 = Ok r2
       /\ r2 <= r1)
  /\ (forall e u1 u2, 0 < e -> u1 <= u2 ->
        exists r1 r2,
          physics_models.calculate_range u1 e = Ok r1
          /\ physics_models.calculate_range u2 e = Ok r2
          /\ r1 <= r2).
Proof.
  unfold physics_models.calculate_range. split.
  - intros u e1 e2 Hu He1 He12.
    exists (u / e1), (u / e2).
    rewrite !truediv_ok by lra. repeat split.
    unfold Rdiv. apply Rmult_le_compat_l; [lra | ].
    apply Rinv_le_contravar; assumption.
  - intros e u1 u2 He Hu.
    exists (u1 / e), (u2 / e).
    rewrite !truediv_ok by lra. repeat split.
    unfold Rdiv. apply Rmult_le_compat_r; [ | assumption].
    left. now apply Rinv_0_lt_compat.
Qed.

Lemma range_monotone_witness :
  (exists r1 r2,
      physics_models.calculate_range 45 0.1 = Ok r1
      /\ physics_models.calculate_range 45 0.2 = Ok r2
      /\ r2 <= r1)
  /\ (exists r1 r2,
         physics_models.calculate_range 40 0.1 = Ok r1
         /\ physics_models.calculate_range 45 0.1 = Ok r2
         /\ r1 <= r2).
Proof.
  destruct range_monotone as [Hdecr Hincr].
  split; [apply Hdecr; lra | apply Hincr; lra].
Defined.

(** The positive domain matters: the code also answers for a negative energy
    per km, and across zero the range is not decreasing. *)
Remark range_across_zero :
  physics_models.calculate_range 45 (-1) = Ok (-45)
  /\ physics_models.calculate_range 45 1 = Ok 45.
Proof.
  unfold physics_models.calculate_range.
  rewrite !truediv_ok by lra. split; f_equal; lra.
Qed.

(** ** The core on binary64 floats *)
Module binary64_facts.

Import PrimFloat.

#[local] Set Warnings "-inexact-float".

Lemma div_nan (x : float) : (x / nan)%float = nan.
Proof.
  rewrite <- (FloatAxioms.SF2Prim_Prim2SF (x / nan)), FloatAxioms.div_spec.
  change (FloatOps.Prim2SF nan) with SpecFloat.S754_nan.
  unfold FloatAxioms.SF64div, SpecFloat.SFdiv.
  destruct (FloatOps.Prim2SF x); reflexivity.
Qed.

Lemma nan_div (y : float) : (nan / y)%float = nan.
Proof.
  rewrite <- (FloatAxioms.SF2Prim_Prim2SF (nan / y)), FloatAxioms.div_spec.
  change (FloatOps.Prim2SF nan) with SpecFloat.S754_nan.
  reflexivity.
Qed.

(** C8, as the specification states it, fails on the floats the code
    computes with: two different positive energies per km give the same
    range, and so do two different usable energies. *)
Lemma range_ties_between_neighbouring_floats :
  ((0 <? 45)%float = true
   /\ (0 <? 0.15000000000000033)%float = true
   /\ (0.15000000000000033 <? 0.15000000000000036)%float = true
   /\ binary64.calculate_range 45 0.15000000000000033
      = Ok 299.9999999999993%float
   /\ binary64.calculate_range 45 0.15000000000000036
      = Ok 299.9999999999993%float)
  /\ ((0 <? 0.15)%float = true
      /\ (45.00000000000003 <? 45.000000000000036)%float = true
      /\ binary64.calculate_range 45.00000000000003 0.15
         = Ok 300.0000000000002%float
      /\ binary64.calculate_range 45.000000000000036 0.15
         = Ok 300.0000000000002%float).
Proof. repeat split; vm_compute; reflexivity. Qed.

Section Libm.

Variable math_sin : float -> float.
Variable math_atan : float -> float.
Variable float_pow : float -> float -> result float.

Let pipeline := binary64.pipeline math_sin math_atan float_pow.

(** Whatever the C library computes, a drivetrain efficiency of [nan] comes
    out as a battery power, an energy per km and a range of [nan]. *)
Lemma float_pipeline_nan_efficiency
    (mass Cd area Crr capacity speed slope usable speed_ms square : float) :
  binary64.convert_kmh_to_ms speed = Ok speed_ms ->
  float_pow speed_ms two = Ok square ->
  eqb (binary64.convert_ms_to_kmh speed_ms) zero = false ->
  exists l,
    pipeline mass Cd area Crr capacity speed slope nan usable = Ok l
    /\ binary64.power_battery l = nan
    /\ binary64.energy_per_km l = nan
    /\ binary64.range_km l = nan.
Proof.
  intros Hms Hpow Hkm.
  unfold pipeline, binary64.pipeline. rewrite Hms. cbn [bind].
  unfold binary64.convert_slope_percent_to_radians.
  change (binary64.truediv slope 100) with (Ok (slope / 100)%float). cbn [bind].
  unfold binary64.calculate_drag_force.
  change 2%float with two. rewrite Hpow. cbn [bind].
  unfold binary64.calculate_power_from_battery.
  match goal with
  | |- context [binary64.truediv ?w nan] =>
      change (binary64.truediv w nan) with (Ok (w / nan)%float);
      rewrite (div_nan w)
  end.
  cbn [bind].
  unfold binary64.calculate_energy_per_km, binary64.convert_watts_to_kwh.
  change (binary64.truediv nan 1000) with (Ok nan). cbn [bind]. cbv zeta.
  unfold binary64.truediv at 1. change 0%float with zero.
  rewrite Hkm, nan_div. cbn [bind].
  unfold binary64.calculate_range.
  match goal with
  | |- context [binary64.truediv ?u nan] =>
      change (binary64.truediv u nan) with (Ok (u / nan)%float);
      rewrite (div_nan u)
  end.
  cbn [bind]. eexists. split; [reflexivity | ]. cbn. repeat split.
Qed.

(** Whatever the C library computes, an efficiency of zero reaches the
    division and raises. *)
Lemma float_pipeline_zero_efficiency
    (mass Cd area Crr capacity speed slope usable speed_ms square : float) :
  binary64.convert_kmh_to_ms speed = Ok speed_ms ->
  float_pow speed_ms two = Ok square ->
  pipeline mass Cd area Crr capacity speed slope zero usable
  = Raise ZeroDivisionError.
Proof.
  intros Hms Hpow.
  unfold pipeline, binary64.pipeline. rewrite Hms. cbn [bind].
  unfold binary64.convert_slope_percent_to_radians.
  change (binary64.truediv slope 100) with (Ok (slope / 100)%float). cbn [bind].
  unfold binary64.calculate_drag_force.
  change 2%float with two. rewrite Hpow. cbn [bind].
  reflexivity.
Qed.

(** Whatever the C library computes, a speed of zero raises at the division
    by the speed in km/h. *)
Lemma float_pipeline_zero_speed
    (mass Cd area Crr capacity slope efficiency usable square : float) :
  float_pow zero two = Ok square ->
  eqb efficiency zero = false ->
  pipeline mass Cd area Crr capacity zero slope efficiency usable
  = Raise ZeroDivisionError.
Proof.
  intros Hpow Heff.
  unfold pipeline, binary64.pipeline.
  change (binary64.convert_kmh_to_ms zero) with (Ok zero). cbn [bind].
  unfold binary64.convert_slope_percent_to_radians.
  change (binary64.truediv slope 100) with (Ok (slope / 100)%float). cbn [bind].
  unfold binary64.calculate_drag_force.
  change 2%float with two. rewrite Hpow. cbn [bind].
  unfold binary64.calculate_power_from_battery.
  unfold binary64.truediv at 1. change 0%float with zero. rewrite Heff.
  cbn [bind].
  unfold binary64.calculate_energy_per_km, binary64.convert_watts_to_kwh.
  match goal with
  | |- context [binary64.truediv ?w 1000] =>
      change (binary64.truediv w 1000) with (Ok (w / 1000)%float)
  end.
  cbn [bind]. reflexivity.
Qed.

End Libm.

End binary64_facts.

(** ** Error handling *)

(** C3, as the specification states it, fails: at speed 0 the error raised is
    not [InvalidSpeed]. *)
Lemma energy_per_km_zero_speed_not_InvalidSpeed :
  physics_models.calculate_energy_per_km 12075 0
  <> Raise (PreconditionError InvalidSpeed).
Proof.
  unfold physics_models.calculate_energy_per_km.
  rewrite convert_watts_to_kwh_ok. cbn [bind].
  unfold utils.convert_ms_to_kmh. rewrite Rmult_0_l, truediv_zero.
  discriminate.
Qed.

(** C3, amended: for every battery power, [calculate_energy_per_km] at speed
    0 raises Python's [ZeroDivisionError]; it never returns a number. *)
Theorem energy_per_km_zero_speed_raises (power_battery_watts : R) :
  physics_models.calculate_energy_per_km power_battery_watts 0
  = Raise ZeroDivisionError.
Proof.
  unfold physics_models.calculate_energy_per_km.
  rewrite convert_watts_to_kwh_ok. cbn [bind].
  unfold utils.convert_ms_to_kmh. rewrite Rmult_0_l. apply truediv_zero.
Qed.

(** C2, as the specification states it, fails: a negative energy per km is
    divided into the usable energy and a negative range comes back. *)
Lemma range_negative_consumption_returns :
  -0.1 <= 0
  /\ physics_models.calculate_range 45 (-0.1) = Ok (-450)
  /\ physics_models.calculate_range 45 (-0.1)
     <> Raise (PreconditionError NonPositiveConsumption).
Proof.
  unfold physics_models.calculate_range.
  rewrite truediv_ok by lra.
  split; [lra | split; [f_equal; lra | discriminate]].
Qed.

(** C2, amended: [calculate_range] has no guard.  With an energy per km of 0
    it raises [ZeroDivisionError]; with a negative one it returns the
    quotient, which is negative for a positive usable energy.  So when the
    downhill gradient force exceeds rolling plus drag (negative total force)
    at a positive speed, with a positive efficiency and usable energy, the
    pipeline returns a negative energy per km and a negative range. *)
Theorem range_non_positive_consumption :
  (forall u, physics_models.calculate_range u 0 = Raise ZeroDivisionError)
  /\ (forall u e, e < 0 ->
        physics_models.calculate_range u e = Ok (u / e)
        /\ (0 < u -> u / e < 0))
  /\ (forall v c s,
        spec.totalResistance v c < 0 ->
        0 < speed_kmh c ->
        0 < drivetrain_efficiency s ->
        0 < spec.usableBatteryEnergy v s ->
        exists l,
          main.pipeline v c s = Ok l
          /\ main.total_force l < 0
          /\ main.energy_per_km l < 0
          /\ main.range_km l < 0).
Proof.
  split; [ | split].
  - intros u. apply truediv_zero.
  - intros u e He. unfold physics_models.calculate_range.
    rewrite truediv_ok by lra. split; [reflexivity | ].
    intros Hu. unfold Rdiv.
    assert (/ e < 0) by now apply Rinv_lt_0_compat.
    nra.
  - intros v c s Ht Hs He Hu.
    exists (spec.computeRange v c s).
    rewrite pipeline_returns by lra.
    assert (Hepk : spec.energyPerKm v c s < 0).
    { rewrite energyPerKm_total by lra. unfold Rdiv.
      assert (0 < / (3600 * drivetrain_efficiency s))
        by (apply Rinv_0_lt_compat; lra).
      nra. }
    cbn [spec.computeRange main.total_force main.energy_per_km main.range_km].
    repeat split; try assumption.
    unfold spec.estimateRange, Rdiv.
    assert (/ spec.energyPerKm v c s < 0) by now apply Rinv_lt_0_compat.
    nra.
Qed.

(** A 10 percent descent at 30 km/h with the compact preset: the gradient
    force outweighs rolling resistance and drag. *)
Lemma sin_atan_descent : sin (atan (-10 / 100)) < - (1 / 20).
Proof.
  rewrite sin_atan.
  set (q := sqrt (1 + (-10 / 100)²)).
  assert (Hq : 0 < q) by (apply sqrt_lt_R0; unfold Rsqr; lra).
  assert (Hqq : q * q = 1 + (-10 / 100)²) by (apply sqrt_sqrt; unfold Rsqr; lra).
  unfold Rsqr in Hqq.
  assert (Hq2 : q < 2) by nra.
  assert (Hinv : / 2 < / q) by (apply Rinv_0_lt_contravar; lra).
  unfold Rdiv. lra.
Qed.

Lemma descent_total_negative :
  spec.totalResistance vehicle_data.COMPACT_EV (mk_conditions 30 (-10)) < 0.
Proof.
  unfold spec.totalResistance, spec.rollingResistance, spec.dragForce,
    spec.gradientForce, spec.toRadians, spec.toMetersPerSecond,
    vehicle_data.GRAVITY, vehicle_data.AIR_DENSITY.
  cbn [vehicle_data.COMPACT_EV vehicle_data.mass vehicle_data.rolling_resistance
       vehicle_data.drag_coefficient vehicle_data.frontal_area
       speed_kmh slope_percent].
  pose proof sin_atan_descent as Hsin. lra.
Qed.

Lemma range_non_positive_consumption_witness :
  physics_models.calculate_range 45 0 = Raise ZeroDivisionError
  /\ (-0.1 < 0
      /\ physics_models.calculate_range 45 (-0.1) = Ok (45 / -0.1))
  /\ (spec.totalResistance vehicle_data.COMPACT_EV (mk_conditions 30 (-10)) < 0
      /\ 0 < speed_kmh (mk_conditions 30 (-10))
      /\ 0 < drivetrain_efficiency (mk_system 0.88 0.90)
      /\ 0 < spec.usableBatteryEnergy vehicle_data.COMPACT_EV (mk_system 0.88 0.90)
      /\ exists l,
           main.pipeline vehicle_data.COMPACT_EV (mk_conditions 30 (-10))
             (mk_system 0.88 0.90) = Ok l
           /\ main.total_force l < 0
           /\ main.energy_per_km l < 0
           /\ main.range_km l < 0).
Proof.
  destruct range_non_positive_consumption as (Hzero & Hneg & Hpipe).
  assert (Hu : 0 < spec.usableBatteryEnergy vehicle_data.COMPACT_EV
                     (mk_system 0.88 0.90)).
  { unfold spec.usableBatteryEnergy. cbn. lra. }
  split; [apply Hzero | split].
  - split; [lra | apply Hneg; lra].
  - split; [exact descent_total_negative | ].
    split; [cbn; lra | split; [cbn; lra | split; [exact Hu | ]]].
    apply Hpipe; [exact descent_total_negative | cbn; lra | cbn; lra | exact Hu].
Defined.

(** The pipeline performs no validation: whatever the inputs, its outcome is
    decided by which of three quantities are zero. *)
Lemma pipeline_cases (v : vehicle_data.vehicle) (c : driving_conditions R)
    (s : system_params R) :
  ((drivetrain_efficiency s = 0 \/ speed_kmh c = 0 \/ spec.totalResistance v c = 0)
   /\ main.pipeline v c s = Raise ZeroDivisionError)
  \/ ((drivetrain_efficiency s <> 0 /\ speed_kmh c <> 0
       /\ spec.totalResistance v c <> 0)
      /\ main.pipeline v c s = Ok (spec.computeRange v c s)).
Proof.
  destruct (Req_dec_T (drivetrain_efficiency s) 0) as [He | He].
  { left. split; [now left | now apply pipeline_zero_efficiency]. }
  destruct (Req_dec_T (speed_kmh c) 0) as [Hs | Hs].
  { left. split; [right; now left | now apply pipeline_zero_speed]. }
  destruct (Req_dec_T (spec.totalResistance v c) 0) as [Ht | Ht].
  { left. split; [right; now right | now apply pipeline_zero_force]. }
  right. split; [repeat split; assumption | now apply pipeline_returns].
Qed.

Lemma pipeline_ok_inv (v : vehicle_data.vehicle) (c : driving_conditions R)
    (s : system_params R) (l : main.locals) :
  main.pipeline v c s = Ok l ->
  l = spec.computeRange v c s
  /\ drivetrain_efficiency s <> 0 /\ speed_kmh c <> 0
  /\ spec.totalResistance v c <> 0.
Proof.
  intros E. destruct (pipeline_cases v c s) as [[_ E'] | [(He & Hs & Ht) E']];
    rewrite E' in E; [discriminate | ].
  injection E as <-. repeat split; assumption.
Qed.

Lemma estimateRange_closed_form (v : vehicle_data.vehicle)
    (c : driving_conditions R) (s : system_params R) :
  drivetrain_efficiency s <> 0 -> speed_kmh c <> 0 ->
  spec.totalResistance v c <> 0 ->
  spec.estimateRange v c s
  = 3600 * drivetrain_efficiency s * spec.usableBatteryEnergy v s
    / spec.totalResistance v c.
Proof.
  intros He Hs Ht. unfold spec.estimateRange.
  rewrite energyPerKm_total by assumption. field. split; assumption.
Qed.

Lemma level_total_positive (v : vehicle_data.vehicle)
    (c : driving_conditions R) :
  0 < vehicle_data.mass v ->
  0 < vehicle_data.drag_coefficient v ->
  0 < vehicle_data.frontal_area v ->
  0 < vehicle_data.rolling_resistance v ->
  0 < speed_kmh c ->
  0 <= slope_percent c ->
  0 < spec.totalResistance v c.
Proof.
  intros Hm HCd HA HCrr Hv Hslope.
  unfold spec.totalResistance, spec.rollingResistance, spec.dragForce,
    spec.gradientForce, spec.toRadians, spec.toMetersPerSecond,
    vehicle_data.GRAVITY, vehicle_data.AIR_DENSITY.
  assert (0 < vehicle_data.mass v * vehicle_data.rolling_resistance v)
    by now apply Rmult_lt_0_compat.
  assert (0 < vehicle_data.drag_coefficient v * vehicle_data.frontal_area v)
    by now apply Rmult_lt_0_compat.
  assert (0 < (speed_kmh c / 3.6) ^ 2) by nra.
  assert (Hsin : 0 <= sin (atan (slope_percent c / 100))).
  { destruct (Req_dec_T (slope_percent c) 0) as [-> | Hne].
    - replace (0 / 100) with 0 by lra. rewrite atan_0, sin_0. lra.
    - left. pose proof (atan_bound (slope_percent c / 100)) as [_ Hhi].
      pose proof PI_RGT_0.
      apply sin_gt_0; [ | lra].
      rewrite <- atan_0. apply atan_increasing. lra. }
  nra.
Qed.

(** C4, as the specification states it, fails: an efficiency of 0 is not
    rejected by name but reaches the division, a negative mass is not
    rejected at all, and [nan] and infinity are not held back: a [nan]
    efficiency gives a [nan] battery power, a [nan] energy per km gives a
    [nan] range, and an infinite usable energy gives an infinite range. *)
Lemma pipeline_validates_nothing :
  (drivetrain_efficiency (mk_system 0 0.90) <= 0
   /\ main.pipeline vehicle_data.COMPACT_EV spec.scenario_A_conditions
        (mk_system 0 0.90) = Raise ZeroDivisionError)
  /\ (vehicle_data.mass (vehicle_data.mk_vehicle (-1500) 0.28 2.2 0.010 50) <= 0
      /\ returns (main.pipeline (vehicle_data.mk_vehicle (-1500) 0.28 2.2 0.010 50)
                    spec.scenario_A_conditions spec.scenario_A_system))
  /\ (binary64.calculate_power_from_battery PrimFloat.one PrimFloat.nan
      = Ok PrimFloat.nan
      /\ binary64.calculate_energy_per_km PrimFloat.nan PrimFloat.one
         = Ok PrimFloat.nan
      /\ binary64.calculate_range PrimFloat.one PrimFloat.nan = Ok PrimFloat.nan
      /\ binary64.calculate_range PrimFloat.infinity PrimFloat.one
         = Ok PrimFloat.infinity).
Proof.
  split; [ | split].
  - split; [cbn; lra | ]. apply pipeline_zero_efficiency. reflexivity.
  - split; [cbn; lra | ].
    eexists. apply pipeline_returns; try (cbn; lra).
    unfold spec.totalResistance, spec.rollingResistance, spec.dragForce,
      spec.gradientForce, spec.toRadians, spec.toMetersPerSecond,
      vehicle_data.GRAVITY, vehicle_data.AIR_DENSITY.
    cbn -[Rdiv Rmult Rplus pow sin atan].
    replace (0 / 100) with 0 by lra. rewrite atan_0, sin_0. lra.
  - repeat split; vm_compute; reflexivity.
Qed.

(** C4, amended: the pipeline checks no precondition and never raises one of
    the named errors.  An efficiency of 0 and a speed of 0 reach a division
    and raise [ZeroDivisionError].  On a level or rising road with positive
    mass, drag coefficient, frontal area, rolling resistance and speed, every
    efficiency other than 0, also a negative one or one above 1, and every
    battery capacity and usable fraction, also non-positive ones, are taken
    as they are: a range is returned, with the sign of efficiency times
    capacity times usable fraction.  And [nan] is handed on to the caller:
    on floats, whatever the C library computes, an efficiency of [nan] comes
    back as a battery power, an energy per km and a range of [nan]. *)
Theorem pipeline_validates_no_precondition :
  (forall (v : vehicle_data.vehicle) (c : driving_conditions R)
          (s : system_params R),
      (forall k, main.pipeline v c s <> Raise (PreconditionError k))
      /\ (drivetrain_efficiency s = 0 ->
          main.pipeline v c s = Raise ZeroDivisionError)
      /\ (speed_kmh c = 0 -> main.pipeline v c s = Raise ZeroDivisionError)
      /\ (0 < vehicle_data.mass v ->
          0 < vehicle_data.drag_coefficient v ->
          0 < vehicle_data.frontal_area v ->
          0 < vehicle_data.rolling_resistance v ->
          0 < speed_kmh c ->
          0 <= slope_percent c ->
          drivetrain_efficiency s <> 0 ->
          exists l,
            main.pipeline v c s = Ok l
            /\ 0 < main.total_force l
            /\ (0 < drivetrain_efficiency s * main.usable_energy l ->
                0 < main.range_km l)
            /\ (drivetrain_efficiency s * main.usable_energy l < 0 ->
                main.range_km l < 0)
            /\ (main.usable_energy l = 0 -> main.range_km l = 0)))
  /\ (forall (math_sin math_atan : PrimFloat.float -> PrimFloat.float)
             (float_pow : PrimFloat.float -> PrimFloat.float
                          -> result PrimFloat.float)
             (mass Cd area Crr capacity speed slope efficiency usable
                speed_ms square : PrimFloat.float),
        binary64.convert_kmh_to_ms speed = Ok speed_ms ->
        float_pow speed_ms PrimFloat.two = Ok square ->
        (efficiency = PrimFloat.zero ->
         binary64.pipeline math_sin math_atan float_pow mass Cd area Crr
           capacity speed slope efficiency usable = Raise ZeroDivisionError)
        /\ (efficiency = PrimFloat.nan ->
            PrimFloat.eqb (binary64.convert_ms_to_kmh speed_ms) PrimFloat.zero
            = false ->
            exists l,
              binary64.pipeline math_sin math_atan float_pow mass Cd area Crr
                capacity speed slope efficiency usable = Ok l
              /\ binary64.power_battery l = PrimFloat.nan
              /\ binary64.energy_per_km l = PrimFloat.nan
              /\ binary64.range_km l = PrimFloat.nan)).
Proof.
  split.
  - intros v c s. split; [ | split; [ | split]].
    + intros k.
      destruct (pipeline_cases v c s) as [[_ E] | [_ E]]; rewrite E; discriminate.
    + apply pipeline_zero_efficiency.
    + intros Hs. destruct (Req_dec_T (drivetrain_efficiency s) 0) as [He | He].
      * now apply pipeline_zero_efficiency.
      * now apply pipeline_zero_speed.
    + intros Hm HCd HA HCrr Hv Hslope He.
      pose proof (level_total_positive v c Hm HCd HA HCrr Hv Hslope) as Ht.
      exists (spec.computeRange v c s).
      rewrite pipeline_returns by lra.
      cbn [spec.computeRange main.total_force main.usable_energy main.range_km].
      split; [reflexivity | split; [exact Ht | ]].
      rewrite estimateRange_closed_form by lra.
      assert (Hinv : 0 < / spec.totalResistance v c) by now apply Rinv_0_lt_compat.
      unfold Rdiv. repeat split.
      * intros H. apply Rmult_lt_0_compat; [ | assumption]. lra.
      * intros H.
        replace (3600 * drivetrain_efficiency s * spec.usableBatteryEnergy v s)
          with (3600 * (drivetrain_efficiency s * spec.usableBatteryEnergy v s))
          by ring.
        nra.
      * intros ->. ring.
  - intros math_sin math_atan float_pow mass Cd area Crr capacity speed slope
      efficiency usable speed_ms square Hms Hpow. split.
    + intros ->.
      now apply (binary64_facts.float_pipeline_zero_efficiency math_sin math_atan
                   float_pow mass Cd area Crr capacity speed slope usable
                   speed_ms square).
    + intros -> Hkm.
      now apply (binary64_facts.float_pipeline_nan_efficiency math_sin math_atan
                   float_pow mass Cd area Crr capacity speed slope usable
                   speed_ms square).
Qed.

Lemma pipeline_validates_no_precondition_witness :
  (exists l,
      main.pipeline vehicle_data.COMPACT_EV spec.scenario_A_conditions
        (mk_system 1.5 (-0.90)) = Ok l
      /\ 0 < main.total_force l
      /\ main.range_km l < 0)
  /\ (exists l,
         binary64.pipeline (fun x => x) (fun x => x)
           (fun x _ => Ok (PrimFloat.mul x x))
           PrimFloat.one PrimFloat.one PrimFloat.one PrimFloat.one PrimFloat.one
           PrimFloat.one PrimFloat.zero PrimFloat.nan PrimFloat.one = Ok l
         /\ binary64.range_km l = PrimFloat.nan).
Proof.
  destruct pipeline_validates_no_precondition as [HR HF].
  split.
  - destruct (HR vehicle_data.COMPACT_EV spec.scenario_A_conditions
                (mk_system 1.5 (-0.90))) as (_ & _ & _ & Hret).
    destruct Hret as (l & E & Ht & _ & Hneg & _); try (cbn; lra).
    exists l. split; [exact E | split; [exact Ht | ]].
    apply Hneg. apply pipeline_ok_inv in E as (-> & _).
    cbn [spec.computeRange main.usable_energy]. unfold spec.usableBatteryEnergy.
    cbn. lra.
  - edestruct (HF (fun x => x) (fun x => x) (fun x _ => Ok (PrimFloat.mul x x))
                 PrimFloat.one PrimFloat.one PrimFloat.one PrimFloat.one
                 PrimFloat.one PrimFloat.one PrimFloat.zero PrimFloat.nan
                 PrimFloat.one)
      as [_ Hnan]; [reflexivity | reflexivity | ].
    destruct Hnan as (l & E & _ & _ & Hr); [reflexivity | reflexivity | ].
    exists l. split; [exact E | exact Hr].
Defined.

(** ** End-to-end scenario A *)

Lemma close_intro (tol expected actual : R) :
  0 <= expected ->
  expected - tol * expected <= actual <= expected + tol * expected ->
  spec.close tol expected actual.
Proof.
  intros He H. unfold spec.close. rewrite (Rabs_pos_eq expected) by assumption.
  apply Rabs_le. lra.
Qed.

Lemma close_elim (tol expected actual : R) :
  0 <= expected ->
  spec.close tol expected actual ->
  expected - tol * expected <= actual <= expected + tol * expected.
Proof.
  intros He H. unfold spec.close in H.
  rewrite (Rabs_pos_eq expected) in H by assumption.
  unfold Rabs in H. destruct (Rcase_abs (actual - expected)); lra.
Qed.

Lemma scenario_A_total_nonzero :
  spec.totalResistance vehicle_data.COMPACT_EV spec.scenario_A_conditions <> 0.
Proof. unfold_formulas. lra. Qed.

Lemma scenario_A_pipeline :
  main.pipeline vehicle_data.COMPACT_EV spec.scenario_A_conditions
    spec.scenario_A_system
  = Ok (spec.computeRange vehicle_data.COMPACT_EV spec.scenario_A_conditions
          spec.scenario_A_system).
Proof.
  apply pipeline_returns; [cbn; lra | cbn; lra | exact scenario_A_total_nonzero].
Qed.

(** C1, as the specification states it, fails even with a tolerance of ten
    percent on every figure: the drag force of scenario A is not near
    235.4 N. *)
Lemma scenario_A_figures_refuted :
  ~ exists l,
      main.pipeline vehicle_data.COMPACT_EV spec.scenario_A_conditions
        spec.scenario_A_system = Ok l
      /\ spec.scenario_figures (1 / 10)
           147.15 235.4 0 382.5 10626 12075 0.1208 45 372.6 l.
Proof.
  intros (l & E & _ & Hdrag & _).
  rewrite scenario_A_pipeline in E. injection E as <-.
  apply close_elim in Hdrag; [ | lra].
  cbn [spec.computeRange main.drag] in Hdrag.
  revert Hdrag. unfold_formulas. lra.
Qed.

(** C1, amended: on the inputs of scenario A the pipeline returns, with
    rolling resistance 147.15 N, drag about 291.13 N, gradient force 0,
    total about 438.28 N, power at the wheels about 12174.3 W, battery power
    about 13834.5 W, energy per km about 0.13834 kWh/km, usable energy 45 kWh
    and range about 325.27 km, each up to one part in ten thousand. *)
Theorem scenario_A_figures :
  exists l,
    main.pipeline vehicle_data.COMPACT_EV spec.scenario_A_conditions
      spec.scenario_A_system = Ok l
    /\ spec.scenario_figures (1 / 10000)
         147.15 291.13 0 438.28 12174.3 13834.5 0.13834 45 325.27 l
    /\ main.rolling l = 147.15
    /\ main.gradient l = 0
    /\ main.usable_energy l = 45.
Proof.
  eexists. split; [exact scenario_A_pipeline | ].
  cbn [spec.computeRange spec.scenario_figures main.rolling main.drag
       main.gradient main.total_force main.power_wheels main.power_battery
       main.energy_per_km main.usable_energy main.range_km].
  unfold spec.scenario_figures.
  cbn [spec.computeRange main.rolling main.drag
       main.gradient main.total_force main.power_wheels main.power_battery
       main.energy_per_km main.usable_energy main.range_km].
  repeat split; try (apply close_intro; [lra | ]); unfold_formulas; lra.
Qed.

(** ** The input layer *)

(** The prompt loop at work: text that is not a number, a value above the
    maximum and an infinity are asked again; the first value in range is
    returned and the lines after it are left unread. *)
Example get_user_input_retries :
  user_interface.get_user_input (Some (Fin 70)) (Some (Fin 98)) (Some (Fin 88))
    [Text; Number (Fin 120); Number PosInf; Number (Fin 85); Number (Fin 90)]
  = Ok (Fin 85, [Number (Fin 90)]).
Proof.
  cbn.
  destruct (Rlt_dec 120 70); [lra | ].
  destruct (Rlt_dec 98 120); [ | lra].
  destruct (Rlt_dec 85 70); [lra | ].
  destruct (Rlt_dec 98 85); [lra | ].
  reflexivity.
Qed.

(** What [get_user_input] does guarantee when both bounds and an in-range
    default are given: the value it returns is within the bounds, or it is
    [nan], which passes both comparisons. *)
Lemma get_user_input_accepts (lo hi : R) (default : option pyfloat)
    (stdin rest : list line) (v : pyfloat) :
  (forall d, default = Some d -> within_bounds lo hi d) ->
  user_interface.get_user_input (Some (Fin lo)) (Some (Fin hi)) default stdin
  = Ok (v, rest) ->
  v = NaN \/ within_bounds lo hi v.
Proof.
  intros Hd. induction stdin as [ | user_input stdin IH]; cbn.
  - discriminate.
  - destruct user_input as [ | [x | | | ] | ]; cbn.
    + destruct default as [d | ]; [ | exact IH].
      intros E. injection E as <- _. right. now apply Hd.
    + destruct default; (destruct (Rlt_dec x lo); [exact IH | ];
        destruct (Rlt_dec hi x); [exact IH | ];
        intros E; injection E as <- _; right; cbn; lra).
    + destruct default; exact IH.
    + destruct default; exact IH.
    + destruct default; intros E; injection E as <- _; now left.
    + destruct default; exact IH.
Qed.

Lemma py_truediv_100 (v : pyfloat) :
  py_truediv v (Fin 100)
  = Ok match v with
       | Fin x => Fin (x / 100)
       | PosInf => PosInf
       | NegInf => NegInf
       | NaN => NaN
       end.
Proof.
  unfold py_truediv, is_negative.
  destruct (Req_dec_T 100 0); [lra | ].
  destruct (Rlt_dec 100 0); [lra | ].
  destruct v; reflexivity.
Qed.

(** For every input on which [get_system_parameters] returns, each of the
    two settings is within its bounds or is [nan]. *)
Lemma get_system_parameters_accepts (stdin rest : list line)
    (params : system_params pyfloat) :
  user_interface.get_system_parameters stdin = Ok (params, rest) ->
  (drivetrain_efficiency params = NaN
   \/ within_bounds 0.70 0.98 (drivetrain_efficiency params))
  /\ (battery_usable_percent params = NaN
      \/ within_bounds 0.70 1.00 (battery_usable_percent params)).
Proof.
  unfold user_interface.get_system_parameters, io_bind, io_lift, io_ret.
  destruct (user_interface.get_user_input _ _ _ stdin)
    as [[efficiency stdin1] | ] eqn:E1; [ | discriminate].
  destruct (user_interface.get_user_input _ _ _ stdin1)
    as [[usable stdin2] | ] eqn:E2; [ | discriminate].
  rewrite !py_truediv_100. intros E. injection E as <- _.
  apply get_user_input_accepts in E1; [ | intros d [= <-]; cbn; lra].
  apply get_user_input_accepts in E2; [ | intros d [= <-]; cbn; lra].
  cbn [drivetrain_efficiency battery_usable_percent]. split.
  - destruct E1 as [-> | H]; [now left | right].
    destruct efficiency; cbn in *; try contradiction. lra.
  - destruct E2 as [-> | H]; [now left | right].
    destruct usable; cbn in *; try contradiction. lra.
Qed.

(** With an efficiency in the interface's range the division in
    [calculate_power_from_battery] does not raise. *)
Lemma power_from_battery_in_range (power_at_wheels efficiency : R) :
  within_bounds 0.70 0.98 (Fin efficiency) ->
  physics_models.calculate_power_from_battery power_at_wheels efficiency
  = Ok (power_at_wheels / efficiency).
Proof.
  cbn. intros H. apply truediv_ok. lra.
Qed.

(** C10 fails on the code: typing [nan] at the efficiency prompt and Enter at
    the next one, the bound checks of [get_user_input] both let [nan] through
    and [get_system_parameters] returns a drivetrain efficiency of [nan],
    which is not in [0.70, 0.98]. *)
Theorem get_system_parameters_nan :
  user_interface.get_system_parameters [Number NaN; Blank]
  = Ok (mk_system NaN (Fin (90 / 100)), [])
  /\ ~ within_bounds 0.70 0.98 NaN.
Proof.
  split; [ | intros []].
  unfold user_interface.get_system_parameters, io_bind, io_lift, io_ret.
  cbn [user_interface.get_user_input float user_interface.below
       user_interface.above py_gt py_lt].
  rewrite !py_truediv_100. reflexivity.
Qed.

(** * Further properties of the code *)

(** ** utils.py *)

(** X2: the slope conversion is odd and keeps the order and the sign: a
    descent of p percent gives the opposite of the angle of a climb of p
    percent, a slope that is not smaller gives an angle that is not smaller,
    a climb gives a non-negative angle and a descent a non-positive one, and
    the angle stays between -PI/2 and PI/2. *)
Theorem slope_conversion_odd_monotone :
  (forall p a, utils.convert_slope_percent_to_radians p = Ok a ->
     utils.convert_slope_percent_to_radians (- p) = Ok (- a))
  /\ (forall p q a b,
        utils.convert_slope_percent_to_radians p = Ok a ->
        utils.convert_slope_percent_to_radians q = Ok b ->
        p <= q -> a <= b)
  /\ (forall p a,
        utils.convert_slope_percent_to_radians p = Ok a ->
        (0 <= p -> 0 <= a) /\ (p <= 0 -> a <= 0) /\ - PI / 2 <= a <= PI / 2).
Proof.
  assert (Hmono : forall x y, x <= y -> atan x <= atan y).
  { intros x y [H | ->]; [left; now apply atan_increasing | right; reflexivity]. }
  split; [ | split].
  - intros p a E. rewrite convert_slope_percent_to_radians_ok in *.
    injection E as <-. f_equal.
    replace (- p / 100) with (- (p / 100)) by lra. apply atan_opp.
  - intros p q a b Ea Eb Hpq.
    rewrite convert_slope_percent_to_radians_ok in Ea, Eb.
    injection Ea as <-. injection Eb as <-.
    apply Hmono. lra.
  - intros p a E. rewrite convert_slope_percent_to_radians_ok in E.
    injection E as <-. repeat split.
    + intros Hp. rewrite <- atan_0. apply Hmono. lra.
    + intros Hp. rewrite <- atan_0. apply Hmono. lra.
    + pose proof (atan_bound (p / 100)). lra.
    + pose proof (atan_bound (p / 100)). lra.
Qed.

Lemma slope_conversion_odd_monotone_witness :
  utils.convert_slope_percent_to_radians 100 = Ok (PI / 4)
  /\ utils.convert_slope_percent_to_radians (- 100) = Ok (- (PI / 4))
  /\ utils.convert_slope_percent_to_radians 0 = Ok 0
  /\ 0 <= 100
  /\ 0 <= PI / 4.
Proof.
  assert (E100 : utils.convert_slope_percent_to_radians 100 = Ok (PI / 4)).
  { rewrite convert_slope_percent_to_radians_ok. f_equal.
    replace (100 / 100) with 1 by lra. apply atan_1. }
  assert (E0 : utils.convert_slope_percent_to_radians 0 = Ok 0).
  { rewrite convert_slope_percent_to_radians_ok. f_equal.
    replace (0 / 100) with 0 by lra. apply atan_0. }
  destruct slope_conversion_odd_monotone as (Hodd & Hincr & _).
  split; [exact E100 | split; [exact (Hodd 100 (PI / 4) E100) | ]].
  split; [exact E0 | split; [lra | ]].
  apply (Hincr 0 100 0 (PI / 4) E0 E100). lra.
Defined.

(** ** physics_models.py *)

(** X5: the drag force takes the speed squared, so it is the same for a
    speed and its opposite, and with non-negative coefficients it is never
    negative. *)
Theorem drag_force_even_nonnegative (Cd frontal_area air_density : R) :
  0 <= Cd -> 0 <= frontal_area -> 0 <= air_density ->
  (forall s,
      physics_models.calculate_drag_force (- s) Cd frontal_area air_density
      = physics_models.calculate_drag_force s Cd frontal_area air_density)
  /\ (forall s,
        0 <= physics_models.calculate_drag_force s Cd frontal_area air_density).
Proof.
  intros HCd HA Hrho. unfold physics_models.calculate_drag_force.
  assert (H1 : 0 <= Cd * frontal_area) by now apply Rmult_le_pos.
  assert (H2 : 0 <= Cd * frontal_area * air_density) by now apply Rmult_le_pos.
  split.
  - intros s. ring.
  - intros s. apply Rmult_le_pos; [lra | ]. nra.
Qed.

Lemma drag_force_even_nonnegative_witness :
  (0 <= 0.28 /\ 0 <= 2.2 /\ 0 <= 1.225)
  /\ physics_models.calculate_drag_force (- 10) 0.28 2.2 1.225
     = physics_models.calculate_drag_force 10 0.28 2.2 1.225
  /\ 0 <= physics_models.calculate_drag_force (- 10) 0.28 2.2 1.225.
Proof.
  destruct (drag_force_even_nonnegative 0.28 2.2 1.225) as (Heven & Hpos);
    try lra.
  split; [lra | split; [apply Heven | apply Hpos]].
Defined.

Lemma sin_atan_bounds (x : R) : -1 < sin (atan x) < 1.
Proof.
  pose proof (atan_bound x) as [Hlo Hhi]. pose proof PI_RGT_0 as Hpi.
  split.
  - replace (-1) with (sin (- (PI / 2))) by (rewrite sin_neg, sin_PI2; reflexivity).
    apply sin_increasing_1; lra.
  - rewrite <- sin_PI2. apply sin_increasing_1; lra.
Qed.

Lemma sin_atan_nonneg (x : R) : 0 <= x -> 0 <= sin (atan x).
Proof.
  intros [Hx | <-].
  - left. pose proof (atan_bound x) as [_ Hhi]. pose proof PI_RGT_0.
    apply sin_gt_0; [ | lra].
    rewrite <- atan_0. now apply atan_increasing.
  - rewrite atan_0, sin_0. lra.
Qed.

Lemma sin_atan_increasing (x y : R) : x < y -> sin (atan x) < sin (atan y).
Proof.
  intros Hxy. pose proof (atan_bound x). pose proof (atan_bound y).
  apply sin_increasing_1; try lra. now apply atan_increasing.
Qed.

(** X6: the gradient force of a slope given in percent never exceeds the
    weight [m * g] in size, a descent of p percent pushes exactly as hard as
    a climb of p percent holds back, and the force is not negative on a
    climb and not positive on a descent. *)
Theorem gradient_force_bounded_odd (m g p : R) :
  0 < m -> 0 < g ->
  exists up down,
    utils.convert_slope_percent_to_radians p = Ok up
    /\ utils.convert_slope_percent_to_radians (- p) = Ok down
    /\ Rabs (physics_models.calculate_gradient_force m up g) <= m * g
    /\ physics_models.calculate_gradient_force m down g
       = - physics_models.calculate_gradient_force m up g
    /\ (0 <= p -> 0 <= physics_models.calculate_gradient_force m up g)
    /\ (p <= 0 -> physics_models.calculate_gradient_force m up g <= 0).
Proof.
  intros Hm Hg.
  exists (atan (p / 100)), (atan (- p / 100)).
  rewrite !convert_slope_percent_to_radians_ok.
  unfold physics_models.calculate_gradient_force.
  assert (Hmg : 0 < m * g) by now apply Rmult_lt_0_compat.
  repeat split.
  - destruct (sin_atan_bounds (p / 100)) as [Hlo Hhi].
    apply Rabs_le. split; nra.
  - replace (- p / 100) with (- (p / 100)) by lra.
    rewrite atan_opp, sin_neg. ring.
  - intros Hp.
    assert (0 <= sin (atan (p / 100))) by (apply sin_atan_nonneg; lra).
    apply Rmult_le_pos; lra.
  - intros Hp.
    assert (H : 0 <= sin (atan (- (p / 100)))) by (apply sin_atan_nonneg; lra).
    rewrite atan_opp, sin_neg in H. nra.
Qed.

Lemma gradient_force_bounded_odd_witness :
  (0 < 1500 /\ 0 < 9.81)
  /\ exists up,
       utils.convert_slope_percent_to_radians 10 = Ok up
       /\ Rabs (physics_models.calculate_gradient_force 1500 up 9.81)
          <= 1500 * 9.81
       /\ 0 <= physics_models.calculate_gradient_force 1500 up 9.81.
Proof.
  destruct (gradient_force_bounded_odd 1500 9.81 10)
    as (up & down & Eup & _ & Hbound & _ & Hpos & _); try lra.
  split; [lra | exists up; split; [exact Eup | split; [exact Hbound | ]]].
  apply Hpos. lra.
Defined.

(** X7: the power at the wheels is zero at rest and, at a positive speed,
    has the sign of the total force. *)
Theorem power_at_wheels_sign (total_force speed_ms : R) :
  0 < speed_ms ->
  physics_models.calculate_power_at_wheels total_force 0 = 0
  /\ (0 < total_force ->
      0 < physics_models.calculate_power_at_wheels total_force speed_ms)
  /\ (total_force < 0 ->
      physics_models.calculate_power_at_wheels total_force speed_ms < 0)
  /\ (total_force = 0 ->
      physics_models.calculate_power_at_wheels total_force speed_ms = 0).
Proof.
  intros Hs. unfold physics_models.calculate_power_at_wheels.
  repeat split.
  - ring.
  - intros H. now apply Rmult_lt_0_compat.
  - intros H. nra.
  - intros ->. ring.
Qed.

Lemma power_at_wheels_sign_witness :
  0 < 25
  /\ (0 < 400 /\ 0 < physics_models.calculate_power_at_wheels 400 25)
  /\ (-400 < 0 /\ physics_models.calculate_power_at_wheels (-400) 25 < 0).
Proof.
  split; [lra | split; split; try lra].
  - apply (power_at_wheels_sign 400 25); lra.
  - apply (power_at_wheels_sign (-400) 25); lra.
Defined.

(** X8: with an efficiency in (0, 1] the battery power is the wheel power
    scaled up: it has the same sign and at least the same size. *)
Theorem battery_power_not_smaller (power_at_wheels efficiency : R) :
  0 < efficiency -> efficiency <= 1 ->
  exists power_battery,
    physics_models.calculate_power_from_battery power_at_wheels efficiency
    = Ok power_battery
    /\ Rabs power_at_wheels <= Rabs power_battery
    /\ (0 <= power_at_wheels -> power_at_wheels <= power_battery)
    /\ (power_at_wheels <= 0 -> power_battery <= power_at_wheels).
Proof.
  intros He0 He1. exists (power_at_wheels / efficiency).
  unfold physics_models.calculate_power_from_battery.
  rewrite truediv_ok by lra.
  assert (Hback : power_at_wheels / efficiency * efficiency = power_at_wheels)
    by (field; lra).
  set (pb := power_at_wheels / efficiency) in *.
  assert (Hpos : 0 <= power_at_wheels -> power_at_wheels <= pb) by (intros; nra).
  assert (Hneg : power_at_wheels <= 0 -> pb <= power_at_wheels) by (intros; nra).
  repeat split; try assumption.
  destruct (Rle_dec 0 power_at_wheels) as [H | H].
  - pose proof (Hpos H) as H'.
    rewrite (Rabs_pos_eq power_at_wheels), (Rabs_pos_eq pb) by lra. lra.
  - assert (H' : power_at_wheels <= 0) by lra. pose proof (Hneg H') as H''.
    rewrite (Rabs_left1 power_at_wheels), (Rabs_left1 pb) by lra. lra.
Qed.

Lemma battery_power_not_smaller_witness :
  (0 < 0.88 /\ 0.88 <= 1)
  /\ exists power_battery,
       physics_models.calculate_power_from_battery 11000 0.88 = Ok power_battery
       /\ 11000 <= power_battery.
Proof.
  destruct (battery_power_not_smaller 11000 0.88)
    as (pb & E & _ & Hpos & _); try lra.
  split; [lra | exists pb; split; [exact E | apply Hpos; lra]].
Defined.

Lemma truediv_raise (x y : R) (e : exn) :
  truediv x y = Raise e <-> e = ZeroDivisionError /\ y = 0.
Proof.
  unfold truediv. destruct (Req_dec_T y 0) as [Hy | Hy]; split.
  - intros [= <-]. now split.
  - intros [-> _]. reflexivity.
  - discriminate.
  - intros [_ H]. contradiction.
Qed.

Lemma calculate_energy_per_km_raise (power_battery_watts speed_ms : R) (e : exn) :
  physics_models.calculate_energy_per_km power_battery_watts speed_ms = Raise e
  <-> e = ZeroDivisionError /\ speed_ms = 0.
Proof.
  unfold physics_models.calculate_energy_per_km.
  rewrite convert_watts_to_kwh_ok. cbn [bind].
  rewrite truediv_raise. unfold utils.convert_ms_to_kmh.
  split; intros [He Hs]; (split; [exact He | lra]).
Qed.

(** X9: each of the three functions that divide by an argument raises
    exactly when that argument is zero, and then it is [ZeroDivisionError];
    no other input makes them fail. *)
Theorem dividing_functions_raise_on_zero_only :
  (forall p efficiency e,
      physics_models.calculate_power_from_battery p efficiency = Raise e
      <-> e = ZeroDivisionError /\ efficiency = 0)
  /\ (forall p speed_ms e,
        physics_models.calculate_energy_per_km p speed_ms = Raise e
        <-> e = ZeroDivisionError /\ speed_ms = 0)
  /\ (forall u energy_per_km e,
        physics_models.calculate_range u energy_per_km = Raise e
        <-> e = ZeroDivisionError /\ energy_per_km = 0).
Proof.
  split; [ | split].
  - intros p eff e. apply truediv_raise.
  - intros p s e. apply calculate_energy_per_km_raise.
  - intros u epk e. apply truediv_raise.
Qed.

Lemma dividing_functions_raise_on_zero_only_witness :
  physics_models.calculate_power_from_battery 11000 0 = Raise ZeroDivisionError
  /\ physics_models.calculate_energy_per_km 12500 0 = Raise ZeroDivisionError
  /\ physics_models.calculate_range 45 0 = Raise ZeroDivisionError.
Proof.
  destruct dividing_functions_raise_on_zero_only as (Hp & He & Hr).
  split; [apply Hp | split; [apply He | apply Hr]]; split; reflexivity.
Defined.

(** X11: with a usable fraction in (0, 1] and a positive capacity and energy
    per km, the range is positive and at most the range of the full
    capacity. *)
Theorem usable_fraction_caps_range (capacity fraction energy_per_km : R) :
  0 < capacity -> 0 < fraction -> fraction <= 1 -> 0 < energy_per_km ->
  exists range_km full_range,
    physics_models.calculate_range
      (physics_models.calculate_usable_battery_energy capacity fraction)
      energy_per_km = Ok range_km
    /\ physics_models.calculate_range capacity energy_per_km = Ok full_range
    /\ 0 < range_km
    /\ range_km <= full_range.
Proof.
  intros Hc Hf0 Hf1 He.
  unfold physics_models.calculate_range,
    physics_models.calculate_usable_battery_energy.
  exists (capacity * fraction / energy_per_km), (capacity / energy_per_km).
  rewrite !truediv_ok by lra.
  assert (Hinv : 0 < / energy_per_km) by now apply Rinv_0_lt_compat.
  assert (Hcf : 0 < capacity * fraction) by now apply Rmult_lt_0_compat.
  repeat split.
  - unfold Rdiv. now apply Rmult_lt_0_compat.
  - unfold Rdiv. apply Rmult_le_compat_r; [lra | nra].
Qed.

Lemma usable_fraction_caps_range_witness :
  (0 < 50 /\ 0 < 0.90 /\ 0.90 <= 1 /\ 0 < 0.15)
  /\ exists range_km full_range,
       physics_models.calculate_range
         (physics_models.calculate_usable_battery_energy 50 0.90) 0.15
       = Ok range_km
       /\ physics_models.calculate_range 50 0.15 = Ok full_range
       /\ 0 < range_km
       /\ range_km <= full_range.
Proof.
  split; [lra | apply (usable_fraction_caps_range 50 0.90 0.15); lra].
Defined.

(** ** main.py: the pipeline as a whole *)

Lemma Rdiv_pos_iff (a b : R) : b <> 0 -> (0 < a / b <-> 0 < a * b).
Proof.
  intros Hb.
  assert (Hsq : 0 < b * b) by nra.
  assert (E : a * b = a / b * (b * b)) by (field; assumption).
  rewrite E. split; intros H.
  - now apply Rmult_lt_0_compat.
  - nra.
Qed.

(** X12: what a returned round implies.  Whenever the pipeline returns, the
    efficiency, the speed, the total force, both powers and the energy per
    km are all different from zero; the total force is the sum of the three
    forces and the power at the wheels is total force times speed; the
    energy per km is positive exactly when total force and efficiency have
    the same sign; and the range is positive exactly when usable energy and
    energy per km have the same sign, and zero exactly when the usable
    energy is zero. *)
Theorem pipeline_result_signs (v : vehicle_data.vehicle)
    (c : driving_conditions R) (s : system_params R) (l : main.locals) :
  main.pipeline v c s = Ok l ->
  (drivetrain_efficiency s <> 0 /\ speed_kmh c <> 0
   /\ main.total_force l <> 0 /\ main.power_wheels l <> 0
   /\ main.power_battery l <> 0 /\ main.energy_per_km l <> 0)
  /\ main.total_force l = main.rolling l + main.drag l + main.gradient l
  /\ main.power_wheels l = main.total_force l * main.speed_ms l
  /\ (0 < main.energy_per_km l
      <-> 0 < main.total_force l * drivetrain_efficiency s)
  /\ (0 < main.range_km l
      <-> 0 < main.usable_energy l * main.energy_per_km l)
  /\ (main.range_km l = 0 <-> main.usable_energy l = 0).
Proof.
  intros E. apply pipeline_ok_inv in E as (-> & He & Hs & Ht).
  cbn [spec.computeRange main.total_force main.rolling main.drag main.gradient
       main.power_wheels main.speed_ms main.power_battery main.energy_per_km
       main.range_km main.usable_energy].
  pose proof (energyPerKm_nonzero v c s Hs He Ht) as Hepk.
  pose proof (speed_ms_nonzero c Hs) as Hms.
  assert (Hpw : spec.powerAtWheels v c <> 0).
  { unfold spec.powerAtWheels. now apply Rmult_integral_contrapositive_currified. }
  assert (Hpb : spec.powerFromBattery v c s <> 0).
  { unfold spec.powerFromBattery, Rdiv.
    apply Rmult_integral_contrapositive_currified; [assumption | ].
    now apply Rinv_neq_0_compat. }
  split; [repeat split; assumption | ].
  split; [reflexivity | split; [reflexivity | ]].
  split; [ | split].
  - rewrite energyPerKm_total by assumption.
    rewrite Rdiv_pos_iff by lra.
    split; intros H; nra.
  - unfold spec.estimateRange. now apply Rdiv_pos_iff.
  - unfold spec.estimateRange, Rdiv. split.
    + intros H. apply Rmult_integral in H as [H | H]; [exact H | ].
      exfalso. revert H. now apply Rinv_neq_0_compat.
    + intros ->. ring.
Qed.

Lemma pipeline_result_signs_witness :
  exists l,
    main.pipeline vehicle_data.COMPACT_EV spec.scenario_A_conditions
      spec.scenario_A_system = Ok l
    /\ main.total_force l <> 0
    /\ main.energy_per_km l <> 0.
Proof.
  exists (spec.computeRange vehicle_data.COMPACT_EV spec.scenario_A_conditions
            spec.scenario_A_system).
  split; [exact scenario_A_pipeline | ].
  destruct (pipeline_result_signs vehicle_data.COMPACT_EV
              spec.scenario_A_conditions spec.scenario_A_system _
              scenario_A_pipeline) as ((_ & _ & Ht & _ & _ & Hepk) & _).
  split; [exact Ht | exact Hepk].
Defined.

(** On positive inputs and a slope that is not negative every stage of the
    pipeline is defined and positive. *)
(** On positive inputs and a slope that is not negative every stage of the
    pipeline is defined and positive. *)
Lemma positive_inputs_positive_range (v : vehicle_data.vehicle)
    (c : driving_conditions R) (s : system_params R) :
  0 < vehicle_data.mass v ->
  0 < vehicle_data.drag_coefficient v ->
  0 < vehicle_data.frontal_area v ->
  0 < vehicle_data.rolling_resistance v ->
  0 < vehicle_data.battery_capacity v ->
  0 < speed_kmh c ->
  0 < drivetrain_efficiency s ->
  0 < battery_usable_percent s ->
  0 <= slope_percent c ->
  exists l,
    main.pipeline v c s = Ok l
    /\ 0 < main.rolling l /\ 0 < main.drag l /\ 0 <= main.gradient l
    /\ 0 < main.total_force l /\ 0 < main.power_wheels l
    /\ 0 < main.power_battery l /\ 0 < main.energy_per_km l
    /\ 0 < main.usable_energy l /\ 0 < main.range_km l.
Proof.
  intros Hm HCd HA HCrr Hcap Hv He Hu Hslope.
  assert (Hms : 0 < spec.toMetersPerSecond c)
    by (unfold spec.toMetersPerSecond; lra).
  assert (Hroll : 0 < spec.rollingResistance v).
  { unfold spec.rollingResistance, vehicle_data.GRAVITY.
    assert (0 < vehicle_data.mass v * vehicle_data.rolling_resistance v)
      by now apply Rmult_lt_0_compat.
    lra. }
  assert (Hdrag : 0 < spec.dragForce v c).
  { unfold spec.dragForce, vehicle_data.AIR_DENSITY.
    assert (0 < vehicle_data.drag_coefficient v * vehicle_data.frontal_area v)
      by now apply Rmult_lt_0_compat.
    assert (0 < spec.toMetersPerSecond c ^ 2) by nra.
    apply Rmult_lt_0_compat; [lra | assumption]. }
  assert (Hgrad : 0 <= spec.gradientForce v c).
  { unfold spec.gradientForce, spec.toRadians, vehicle_data.GRAVITY.
    assert (0 <= sin (atan (slope_percent c / 100)))
      by (apply sin_atan_nonneg; lra).
    apply Rmult_le_pos; [lra | assumption]. }
  assert (Htot : 0 < spec.totalResistance v c)
    by (unfold spec.totalResistance; lra).
  assert (Hpw : 0 < spec.powerAtWheels v c)
    by (unfold spec.powerAtWheels; now apply Rmult_lt_0_compat).
  assert (Hinv : 0 < / drivetrain_efficiency s) by now apply Rinv_0_lt_compat.
  assert (Hpb : 0 < spec.powerFromBattery v c s)
    by (unfold spec.powerFromBattery, Rdiv; now apply Rmult_lt_0_compat).
  assert (Hepk : 0 < spec.energyPerKm v c s).
  { rewrite energyPerKm_total by lra. unfold Rdiv.
    apply Rmult_lt_0_compat; [assumption | ].
    apply Rinv_0_lt_compat. lra. }
  assert (Hus : 0 < spec.usableBatteryEnergy v s)
    by (unfold spec.usableBatteryEnergy; now apply Rmult_lt_0_compat).
  exists (spec.computeRange v c s).
  rewrite pipeline_returns by lra.
  cbn [spec.computeRange main.total_force main.rolling main.drag main.gradient
       main.power_wheels main.speed_ms main.power_battery main.energy_per_km
       main.range_km main.usable_energy].
  repeat split; try assumption.
  unfold spec.estimateRange, Rdiv. apply Rmult_lt_0_compat; [assumption | ].
  now apply Rinv_0_lt_compat.
Qed.

Lemma validate_positive_number_finite (x : R) :
  utils.validate_positive_number (Fin x) = true <-> 0 < x.
Proof.
  unfold utils.validate_positive_number. cbn [py_le].
  destruct (Rle_dec x 0); split; intros H; try discriminate; try reflexivity; lra.
Qed.

(** X13: [validate_positive_number] returns [True] for a finite number
    exactly when it is positive, and also for [nan] and [inf], for which
    [value <= 0] is false; it returns [False] for [-inf].  When it returns
    [True] on the five vehicle fields, the speed, the efficiency and the
    usable fraction, all finite, and the slope is not negative, the pipeline
    returns, no force is negative, and total force, powers, energy per km
    and range are all positive. *)
Theorem validated_inputs_give_positive_range :
  (forall x, utils.validate_positive_number (Fin x) = true <-> 0 < x)
  /\ utils.validate_positive_number NaN = true
  /\ utils.validate_positive_number PosInf = true
  /\ utils.validate_positive_number NegInf = false
  /\ (forall (v : vehicle_data.vehicle) (c : driving_conditions R)
             (s : system_params R),
        utils.validate_positive_number (Fin (vehicle_data.mass v)) = true ->
        utils.validate_positive_number
          (Fin (vehicle_data.drag_coefficient v)) = true ->
        utils.validate_positive_number (Fin (vehicle_data.frontal_area v)) = true ->
        utils.validate_positive_number
          (Fin (vehicle_data.rolling_resistance v)) = true ->
        utils.validate_positive_number
          (Fin (vehicle_data.battery_capacity v)) = true ->
        utils.validate_positive_number (Fin (speed_kmh c)) = true ->
        utils.validate_positive_number (Fin (drivetrain_efficiency s)) = true ->
        utils.validate_positive_number (Fin (battery_usable_percent s)) = true ->
        0 <= slope_percent c ->
        exists l,
          main.pipeline v c s = Ok l
          /\ 0 < main.rolling l /\ 0 < main.drag l /\ 0 <= main.gradient l
          /\ 0 < main.total_force l /\ 0 < main.power_wheels l
          /\ 0 < main.power_battery l /\ 0 < main.energy_per_km l
          /\ 0 < main.usable_energy l /\ 0 < main.range_km l).
Proof.
  split; [exact validate_positive_number_finite | ].
  split; [reflexivity | split; [reflexivity | split; [reflexivity | ]]].
  intros v c s Hm HCd HA HCrr Hcap Hv He Hu Hslope.
  apply validate_positive_number_finite in Hm, HCd, HA, HCrr, Hcap, Hv, He, Hu.
  now apply positive_inputs_positive_range.
Qed.

Lemma validated_inputs_give_positive_range_witness :
  exists l,
    main.pipeline vehicle_data.SUV_EV (mk_conditions 120 5) (mk_system 0.9 0.95)
    = Ok l
    /\ 0 < main.total_force l
    /\ 0 < main.range_km l.
Proof.
  destruct validated_inputs_give_positive_range as (Hfin & _ & _ & _ & Hpipe).
  destruct (Hpipe vehicle_data.SUV_EV (mk_conditions 120 5) (mk_system 0.9 0.95))
    as (l & E & _ & _ & _ & Ht & _ & _ & _ & _ & Hr);
    try (apply Hfin; cbn; lra);
    try (cbn; lra).
  exists l. split; [exact E | split; [exact Ht | exact Hr]].
Defined.

Lemma range_ratio_le (K T1 T2 : R) :
  0 <= K -> 0 < T1 -> T1 <= T2 -> K / T2 <= K / T1.
Proof.
  intros HK HT1 HT12. unfold Rdiv.
  apply Rmult_le_compat_l; [assumption | ].
  now apply Rinv_le_contravar.
Qed.

Lemma sin_atan_monotone (x y : R) : x <= y -> sin (atan x) <= sin (atan y).
Proof.
  intros [H | ->]; [left; now apply sin_atan_increasing | right; reflexivity].
Qed.

(** X14: a steeper road never adds range.  If the pipeline returns at some
    slope with a positive total force, then at every slope that is not
    smaller (same vehicle of positive mass, same speed, positive efficiency
    and usable energy) it returns too, with a total force that is not
    smaller and a range that is not longer. *)
Theorem steeper_slope_no_longer_range (v : vehicle_data.vehicle)
    (speed p1 p2 : R) (s : system_params R) (l1 : main.locals) :
  main.pipeline v (mk_conditions speed p1) s = Ok l1 ->
  0 < vehicle_data.mass v ->
  0 < drivetrain_efficiency s ->
  0 < vehicle_data.battery_capacity v * battery_usable_percent s ->
  0 < main.total_force l1 ->
  p1 <= p2 ->
  exists l2,
    main.pipeline v (mk_conditions speed p2) s = Ok l2
    /\ main.total_force l1 <= main.total_force l2
    /\ main.range_km l2 <= main.range_km l1.
Proof.
  intros E Hm He Hu Ht Hp.
  apply pipeline_ok_inv in E as (-> & He' & Hs & Ht').
  cbn [spec.computeRange main.total_force] in Ht.
  assert (Hle : spec.totalResistance v (mk_conditions speed p1)
                <= spec.totalResistance v (mk_conditions speed p2)).
  { unfold spec.totalResistance, spec.gradientForce, spec.toRadians,
      spec.dragForce, spec.toMetersPerSecond, vehicle_data.GRAVITY.
    cbn [speed_kmh slope_percent].
    assert (sin (atan (p1 / 100)) <= sin (atan (p2 / 100)))
      by (apply sin_atan_monotone; lra).
    nra. }
  exists (spec.computeRange v (mk_conditions speed p2) s).
  rewrite pipeline_returns by (cbn [speed_kmh] in *; lra).
  cbn [spec.computeRange main.total_force main.range_km].
  split; [reflexivity | split; [exact Hle | ]].
  rewrite !estimateRange_closed_form by (cbn [speed_kmh] in *; lra).
  apply range_ratio_le; [ | assumption | assumption].
  unfold spec.usableBatteryEnergy.
  left. apply Rmult_lt_0_compat; [lra | assumption].
Qed.

Lemma flat_total_positive (v : vehicle_data.vehicle) (speed : R) :
  0 < vehicle_data.mass v -> 0 < vehicle_data.rolling_resistance v ->
  0 < vehicle_data.drag_coefficient v -> 0 < vehicle_data.frontal_area v ->
  0 < spec.totalResistance v (mk_conditions speed 0).
Proof.
  intros Hm Hc HCd HA.
  unfold spec.totalResistance, spec.rollingResistance, spec.dragForce,
    spec.gradientForce, spec.toRadians, spec.toMetersPerSecond,
    vehicle_data.GRAVITY, vehicle_data.AIR_DENSITY.
  cbn [speed_kmh slope_percent].
  replace (0 / 100) with 0 by lra. rewrite atan_0, sin_0.
  assert (0 < vehicle_data.mass v * vehicle_data.rolling_resistance v)
    by now apply Rmult_lt_0_compat.
  assert (0 < vehicle_data.drag_coefficient v * vehicle_data.frontal_area v)
    by now apply Rmult_lt_0_compat.
  assert (0 <= (speed / 3.6) ^ 2) by nra.
  nra.
Qed.

Lemma steeper_slope_no_longer_range_witness :
  exists l1 l2,
    main.pipeline vehicle_data.COMPACT_EV (mk_conditions 100 0)
      spec.scenario_A_system = Ok l1
    /\ main.pipeline vehicle_data.COMPACT_EV (mk_conditions 100 10)
         spec.scenario_A_system = Ok l2
    /\ main.range_km l2 <= main.range_km l1.
Proof.
  pose proof scenario_A_pipeline as E.
  change spec.scenario_A_conditions with (mk_conditions 100 0) in E.
  destruct (steeper_slope_no_longer_range vehicle_data.COMPACT_EV 100 0 10
              spec.scenario_A_system _ E) as (l2 & E2 & _ & Hr);
    try (cbn; lra).
  - cbn [spec.computeRange main.total_force].
    apply flat_total_positive; cbn; lra.
  - eexists. exists l2. split; [exact E | split; [exact E2 | exact Hr]].
Defined.



(** X16: the battery capacity matters to the range only.  If the pipeline
    returns for a vehicle, it returns for the same vehicle with any other
    capacity, with the same total force and the same energy per km; and when
    the energy per km is positive and the usable fraction not negative, a
    capacity that is not smaller gives a range that is not shorter. *)
Theorem larger_battery_no_shorter_range (v : vehicle_data.vehicle)
    (c : driving_conditions R) (s : system_params R) (capacity : R)
    (l : main.locals) :
  main.pipeline v c s = Ok l ->
  exists l',
    main.pipeline
      (vehicle_data.mk_vehicle (vehicle_data.mass v)
         (vehicle_data.drag_coefficient v) (vehicle_data.frontal_area v)
         (vehicle_data.rolling_resistance v) capacity) c s = Ok l'
    /\ main.total_force l' = main.total_force l
    /\ main.energy_per_km l' = main.energy_per_km l
    /\ (0 < main.energy_per_km l -> 0 <= battery_usable_percent s ->
        vehicle_data.battery_capacity v <= capacity ->
        main.range_km l <= main.range_km l').
Proof.
  intros E. apply pipeline_ok_inv in E as (-> & He & Hs & Ht).
  set (v' := vehicle_data.mk_vehicle _ _ _ _ _).
  assert (Ht' : spec.totalResistance v' c = spec.totalResistance v c)
    by reflexivity.
  exists (spec.computeRange v' c s).
  rewrite pipeline_returns by (try rewrite Ht'; assumption).
  cbn [spec.computeRange main.energy_per_km main.range_km main.total_force].
  split; [reflexivity | split; [reflexivity | split; [reflexivity | ]]].
  intros Hepk Hu Hcap.
  unfold spec.estimateRange.
  change (spec.energyPerKm v' c s) with (spec.energyPerKm v c s).
  unfold Rdiv. apply Rmult_le_compat_r.
  - left. now apply Rinv_0_lt_compat.
  - unfold spec.usableBatteryEnergy, v'. cbn [vehicle_data.battery_capacity].
    now apply Rmult_le_compat_r.
Qed.

Lemma larger_battery_no_shorter_range_witness :
  exists l l',
    main.pipeline vehicle_data.COMPACT_EV spec.scenario_A_conditions
      spec.scenario_A_system = Ok l
    /\ main.pipeline (vehicle_data.mk_vehicle 1500 0.28 2.2 0.010 75)
         spec.scenario_A_conditions spec.scenario_A_system = Ok l'
    /\ main.energy_per_km l' = main.energy_per_km l.
Proof.
  destruct (larger_battery_no_shorter_range vehicle_data.COMPACT_EV
              spec.scenario_A_conditions spec.scenario_A_system 75 _
              scenario_A_pipeline) as (l' & E' & _ & Hepk & _).
  eexists. exists l'.
  split; [exact scenario_A_pipeline | split; [exact E' | exact Hepk]].
Defined.

(** X17: a better drivetrain never costs range.  If the pipeline returns
    with a positive total force at a positive efficiency, then at every
    efficiency that is not smaller (positive usable energy, everything else
    the same) it returns with an energy per km that is not greater and a
    range that is not shorter. *)
Theorem better_efficiency_no_shorter_range (v : vehicle_data.vehicle)
    (c : driving_conditions R) (e1 e2 usable : R) (l1 : main.locals) :
  main.pipeline v c (mk_system e1 usable) = Ok l1 ->
  0 < vehicle_data.battery_capacity v * usable ->
  0 < main.total_force l1 ->
  0 < e1 -> e1 <= e2 ->
  exists l2,
    main.pipeline v c (mk_system e2 usable) = Ok l2
    /\ main.energy_per_km l2 <= main.energy_per_km l1
    /\ main.range_km l1 <= main.range_km l2.
Proof.
  intros E Hu Ht He1 He12.
  apply pipeline_ok_inv in E as (-> & He & Hs & Ht').
  cbn [spec.computeRange main.total_force drivetrain_efficiency] in *.
  exists (spec.computeRange v c (mk_system e2 usable)).
  rewrite pipeline_returns by (cbn [drivetrain_efficiency]; lra).
  cbn [spec.computeRange main.energy_per_km main.range_km].
  split; [reflexivity | split].
  - rewrite !energyPerKm_total by (cbn [drivetrain_efficiency]; lra).
    cbn [drivetrain_efficiency].
    apply range_ratio_le; lra.
  - rewrite !estimateRange_closed_form by (cbn [drivetrain_efficiency]; lra).
    unfold spec.usableBatteryEnergy.
    cbn [drivetrain_efficiency battery_usable_percent].
    unfold Rdiv. apply Rmult_le_compat_r; [left; now apply Rinv_0_lt_compat | ].
    nra.
Qed.

Lemma better_efficiency_no_shorter_range_witness :
  exists l1 l2,
    main.pipeline vehicle_data.COMPACT_EV spec.scenario_A_conditions
      (mk_system 0.88 0.90) = Ok l1
    /\ main.pipeline vehicle_data.COMPACT_EV spec.scenario_A_conditions
         (mk_system 0.95 0.90) = Ok l2
    /\ main.range_km l1 <= main.range_km l2.
Proof.
  pose proof scenario_A_pipeline as E.
  change spec.scenario_A_system with (mk_system 0.88 0.90) in E.
  destruct (better_efficiency_no_shorter_range vehicle_data.COMPACT_EV
              spec.scenario_A_conditions 0.88 0.95 0.90 _ E)
    as (l2 & E2 & _ & Hr); try (cbn; lra).
  - cbn [spec.computeRange main.total_force].
    apply (flat_total_positive vehicle_data.COMPACT_EV 100); cbn; lra.
  - eexists. exists l2. split; [exact E | split; [exact E2 | exact Hr]].
Defined.

(** ** user_interface.py: the numeric prompt *)

Lemma get_user_input_step (min_value max_value default : option pyfloat)
    (user_input : line) (rest : list line) :
  user_interface.get_user_input min_value max_value default (user_input :: rest)
  = match user_interface.accepted min_value max_value default user_input with
    | Some value => Ok (value, rest)
    | None => user_interface.get_user_input min_value max_value default rest
    end.
Proof.
  cbn [user_interface.get_user_input]. unfold user_interface.accepted.
  destruct user_input, default; try reflexivity;
    cbn [float]; destruct (user_interface.below min_value v); try reflexivity;
    destruct (user_interface.above max_value v); reflexivity.
Qed.

(** X18: [get_user_input] returns the value of the first line its loop
    accepts, leaves the lines after it unread and skips those before it; it
    fails only when no line is accepted, with [EOFError]. *)
Theorem get_user_input_first_accepted
    (min_value max_value default : option pyfloat) (stdin : list line) :
  (forall value rest,
      user_interface.get_user_input min_value max_value default stdin
      = Ok (value, rest)
      <-> exists skipped user_input,
            stdin = skipped ++ user_input :: rest
            /\ Forall (fun l => user_interface.accepted
                                  min_value max_value default l = None) skipped
            /\ user_interface.accepted min_value max_value default user_input
               = Some value)
  /\ (forall e,
        user_interface.get_user_input min_value max_value default stdin = Raise e
        <-> e = EOFError
            /\ Forall (fun l => user_interface.accepted
                                  min_value max_value default l = None) stdin).
Proof.
  induction stdin as [ | l stdin [IHok IHraise]].
  - split.
    + intros value rest. cbn. split; [discriminate | ].
      intros (skipped & u & E & _). destruct skipped; discriminate.
    + intros e. cbn. split.
      * intros [= <-]. split; [reflexivity | constructor].
      * intros [-> _]. reflexivity.
  - split.
    + intros value rest. rewrite get_user_input_step.
      destruct (user_interface.accepted min_value max_value default l)
        as [v0 | ] eqn:Hl.
      * split.
        -- intros [= <- <-]. exists [], l.
           repeat split; [constructor | exact Hl].
        -- intros (skipped & u & E & Hsk & Hu).
           destruct skipped as [ | l' skipped].
           ++ cbn in E. injection E as <- <-. rewrite Hl in Hu.
              injection Hu as <-. reflexivity.
           ++ cbn in E. injection E as <- _.
              inversion Hsk as [ | ? ? Hhead _]. congruence.
      * rewrite IHok. split.
        -- intros (skipped & u & -> & Hsk & Hu). exists (l :: skipped), u.
           repeat split; [constructor; assumption | assumption].
        -- intros (skipped & u & E & Hsk & Hu).
           destruct skipped as [ | l' skipped].
           ++ cbn in E. injection E as <- _. congruence.
           ++ cbn in E. injection E as <- ->. exists skipped, u.
              inversion Hsk as [ | ? ? _ Htail]. repeat split; assumption.
    + intros e. rewrite get_user_input_step.
      destruct (user_interface.accepted min_value max_value default l)
        as [v0 | ] eqn:Hl.
      * split; [discriminate | ].
        intros [_ Hall]. inversion Hall as [ | ? ? Hhead _]. congruence.
      * rewrite IHraise. split.
        -- intros [-> Hall]. split; [reflexivity | constructor; assumption].
        -- intros [-> Hall]. inversion Hall. split; [reflexivity | assumption].
Qed.

Lemma accepted_in_range (lo hi x : R) (default : option pyfloat) :
  lo <= x <= hi ->
  user_interface.accepted (Some (Fin lo)) (Some (Fin hi)) default (Number (Fin x))
  = Some (Fin x).
Proof.
  intros [Hlo Hhi]. unfold user_interface.accepted.
  cbn [float user_interface.below user_interface.above py_gt py_lt].
  destruct (Rlt_dec x lo); [lra | ].
  destruct (Rlt_dec hi x); [lra | ].
  destruct default; reflexivity.
Qed.

Lemma accepted_out_of_range (lo hi x : R) (default : option pyfloat) :
  x < lo \/ hi < x ->
  user_interface.accepted (Some (Fin lo)) (Some (Fin hi)) default (Number (Fin x))
  = None.
Proof.
  intros H. unfold user_interface.accepted.
  cbn [float user_interface.below user_interface.above py_gt py_lt].
  destruct (Rlt_dec x lo); [destruct default; reflexivity | ].
  destruct (Rlt_dec hi x); [destruct default; reflexivity | lra].
Qed.

Lemma get_user_input_first_accepted_witness :
  user_interface.get_user_input (Some (Fin 70)) (Some (Fin 98)) (Some (Fin 88))
    [Text; Number (Fin 120); Number (Fin 85); Number (Fin 90)]
  = Ok (Fin 85, [Number (Fin 90)])
  /\ user_interface.get_user_input (Some (Fin 70)) (Some (Fin 98)) (Some (Fin 88))
       [Text; Number (Fin 120)]
     = Raise EOFError.
Proof.
  split.
  - apply (get_user_input_first_accepted (Some (Fin 70)) (Some (Fin 98))
             (Some (Fin 88))
             [Text; Number (Fin 120); Number (Fin 85); Number (Fin 90)]).
    exists [Text; Number (Fin 120)], (Number (Fin 85)).
    split; [reflexivity | split].
    + repeat constructor. apply accepted_out_of_range. lra.
    + apply accepted_in_range. lra.
  - apply (get_user_input_first_accepted (Some (Fin 70)) (Some (Fin 98))
             (Some (Fin 88)) [Text; Number (Fin 120)]).
    split; [reflexivity | ].
    repeat constructor. apply accepted_out_of_range. lra.
Defined.

(** X19: with both bounds given, a number is accepted exactly when it lies
    between them, the bounds included; a number outside, an infinity and
    text that is not a number are asked again; [nan] is accepted. *)
Theorem get_user_input_bounds_inclusive (lo hi x : R) (default : option pyfloat)
    (rest : list line) :
  lo <= hi ->
  (lo <= x <= hi ->
   user_interface.get_user_input (Some (Fin lo)) (Some (Fin hi)) default
     (Number (Fin x) :: rest) = Ok (Fin x, rest))
  /\ (x < lo \/ hi < x ->
      user_interface.get_user_input (Some (Fin lo)) (Some (Fin hi)) default
        (Number (Fin x) :: rest)
      = user_interface.get_user_input (Some (Fin lo)) (Some (Fin hi)) default rest)
  /\ user_interface.get_user_input (Some (Fin lo)) (Some (Fin hi)) default
       (Number (Fin lo) :: rest) = Ok (Fin lo, rest)
  /\ user_interface.get_user_input (Some (Fin lo)) (Some (Fin hi)) default
       (Number (Fin hi) :: rest) = Ok (Fin hi, rest)
  /\ (forall l, In l [Number PosInf; Number NegInf; Text] ->
        user_interface.get_user_input (Some (Fin lo)) (Some (Fin hi)) default
          (l :: rest)
        = user_interface.get_user_input (Some (Fin lo)) (Some (Fin hi)) default rest)
  /\ user_interface.get_user_input (Some (Fin lo)) (Some (Fin hi)) default
       (Number NaN :: rest) = Ok (NaN, rest).
Proof.
  intros Hlohi. repeat split.
  - intros H. rewrite get_user_input_step, accepted_in_range by assumption.
    reflexivity.
  - intros H. rewrite get_user_input_step, accepted_out_of_range by assumption.
    reflexivity.
  - rewrite get_user_input_step, accepted_in_range by lra. reflexivity.
  - rewrite get_user_input_step, accepted_in_range by lra. reflexivity.
  - intros l [<- | [<- | [<- | []]]]; rewrite get_user_input_step;
      destruct default; reflexivity.
Qed.

Lemma get_user_input_bounds_inclusive_witness :
  10 <= 200
  /\ user_interface.get_user_input (Some (Fin 10)) (Some (Fin 200)) None
       [Number (Fin 10)] = Ok (Fin 10, [])
  /\ user_interface.get_user_input (Some (Fin 10)) (Some (Fin 200)) None
       [Number (Fin 200)] = Ok (Fin 200, [])
  /\ user_interface.get_user_input (Some (Fin 10)) (Some (Fin 200)) None
       [Number (Fin 9); Number (Fin 50)]
     = user_interface.get_user_input (Some (Fin 10)) (Some (Fin 200)) None
         [Number (Fin 50)].
Proof.
  split; [lra | ].
  destruct (get_user_input_bounds_inclusive 10 200 9 None [Number (Fin 50)])
    as (_ & Hout & _); [lra | ].
  destruct (get_user_input_bounds_inclusive 10 200 10 None [])
    as (_ & _ & Hlo & Hhi & _); [lra | ].
  split; [exact Hlo | split; [exact Hhi | apply Hout; lra]].
Defined.

(** ** user_interface.py: the prompt sequences *)

Lemma get_user_input_raise (min_value max_value default : option pyfloat)
    (stdin : list line) (e : exn) :
  user_interface.get_user_input min_value max_value default stdin = Raise e ->
  e = EOFError.
Proof.
  induction stdin as [ | l stdin IH].
  - cbn. intros [= <-]. reflexivity.
  - rewrite get_user_input_step.
    destruct (user_interface.accepted min_value max_value default l);
      [discriminate | exact IH].
Qed.

(** X20: every pair of driving conditions the prompts return has a speed
    between 10 and 200 km/h and a slope between -15 and 15 percent, unless
    the value typed is [nan]. *)
Theorem get_driving_conditions_bounds (stdin rest : list line)
    (c : driving_conditions pyfloat) :
  user_interface.get_driving_conditions stdin = Ok (c, rest) ->
  (speed_kmh c = NaN \/ within_bounds 10 200 (speed_kmh c))
  /\ (slope_percent c = NaN \/ within_bounds (-15) 15 (slope_percent c)).
Proof.
  unfold user_interface.get_driving_conditions, io_bind, io_ret.
  destruct (user_interface.get_user_input _ _ _ stdin)
    as [[speed stdin1] | ] eqn:E1; [ | discriminate].
  destruct (user_interface.get_user_input _ _ _ stdin1)
    as [[slope stdin2] | ] eqn:E2; [ | discriminate].
  intros E. injection E as <- _.
  apply get_user_input_accepts in E1; [ | intros d; discriminate].
  apply get_user_input_accepts in E2; [ | intros d [= <-]; cbn; lra].
  cbn [speed_kmh slope_percent]. split; assumption.
Qed.

Lemma get_driving_conditions_run :
  user_interface.get_driving_conditions [Blank; Number (Fin 100); Blank]
  = Ok (mk_conditions (Fin 100) (Fin 0), []).
Proof.
  unfold user_interface.get_driving_conditions, io_bind, io_ret.
  rewrite get_user_input_step. cbn [user_interface.accepted float].
  rewrite get_user_input_step, accepted_in_range by lra.
  reflexivity.
Qed.

Lemma get_driving_conditions_bounds_witness :
  user_interface.get_driving_conditions [Blank; Number (Fin 100); Blank]
  = Ok (mk_conditions (Fin 100) (Fin 0), [])
  /\ (Fin 100 = NaN \/ within_bounds 10 200 (Fin 100))
  /\ (Fin 0 = NaN \/ within_bounds (-15) 15 (Fin 0)).
Proof.
  split; [exact get_driving_conditions_run | ].
  exact (get_driving_conditions_bounds _ _ _ get_driving_conditions_run).
Defined.

(** X21: every custom vehicle the prompts return has each field within the
    bounds of its prompt (battery 10 to 200 kWh, mass 800 to 3000 kg, drag
    coefficient 0.15 to 0.50, frontal area 1.5 to 4.0 m², rolling resistance
    0.005 to 0.020), unless the value typed is [nan]. *)
Theorem get_custom_vehicle_bounds (stdin rest : list line) (cv : custom_vehicle) :
  user_interface._get_custom_vehicle stdin = Ok (cv, rest) ->
  (custom_battery_capacity cv = NaN
   \/ within_bounds 10 200 (custom_battery_capacity cv))
  /\ (custom_mass cv = NaN \/ within_bounds 800 3000 (custom_mass cv))
  /\ (custom_drag_coefficient cv = NaN
      \/ within_bounds 0.15 0.50 (custom_drag_coefficient cv))
  /\ (custom_frontal_area cv = NaN
      \/ within_bounds 1.5 4.0 (custom_frontal_area cv))
  /\ (custom_rolling_resistance cv = NaN
      \/ within_bounds 0.005 0.020 (custom_rolling_resistance cv)).
Proof.
  unfold user_interface._get_custom_vehicle, io_bind, io_ret.
  destruct (user_interface.get_user_input _ _ _ stdin)
    as [[battery stdin1] | ] eqn:E1; [ | discriminate].
  destruct (user_interface.get_user_input _ _ _ stdin1)
    as [[mass stdin2] | ] eqn:E2; [ | discriminate].
  destruct (user_interface.get_user_input _ _ _ stdin2)
    as [[cd stdin3] | ] eqn:E3; [ | discriminate].
  destruct (user_interface.get_user_input _ _ _ stdin3)
    as [[area stdin4] | ] eqn:E4; [ | discriminate].
  destruct (user_interface.get_user_input _ _ _ stdin4)
    as [[crr stdin5] | ] eqn:E5; [ | discriminate].
  intros E. injection E as <- _.
  apply get_user_input_accepts in E1; [ | intros d; discriminate].
  apply get_user_input_accepts in E2; [ | intros d; discriminate].
  apply get_user_input_accepts in E3; [ | intros d [= <-]; cbn; lra].
  apply get_user_input_accepts in E4; [ | intros d [= <-]; cbn; lra].
  apply get_user_input_accepts in E5; [ | intros d [= <-]; cbn; lra].
  cbn [custom_battery_capacity custom_mass custom_drag_coefficient
       custom_frontal_area custom_rolling_resistance].
  repeat split; assumption.
Qed.

Lemma get_custom_vehicle_run :
  user_interface._get_custom_vehicle
    [Number (Fin 60); Number (Fin 5000); Number (Fin 1700); Blank; Blank; Blank]
  = Ok (mk_custom (Fin 60) (Fin 1700) (Fin 0.28) (Fin 2.2) (Fin 0.010), []).
Proof.
  unfold user_interface._get_custom_vehicle, io_bind, io_ret.
  rewrite get_user_input_step, accepted_in_range by lra.
  rewrite get_user_input_step, accepted_out_of_range by lra.
  rewrite get_user_input_step, accepted_in_range by lra.
  reflexivity.
Qed.

Lemma get_custom_vehicle_bounds_witness :
  user_interface._get_custom_vehicle
    [Number (Fin 60); Number (Fin 5000); Number (Fin 1700); Blank; Blank; Blank]
  = Ok (mk_custom (Fin 60) (Fin 1700) (Fin 0.28) (Fin 2.2) (Fin 0.010), [])
  /\ (Fin 1700 = NaN \/ within_bounds 800 3000 (Fin 1700)).
Proof.
  split; [exact get_custom_vehicle_run | ].
  destruct (get_custom_vehicle_bounds _ _ _ get_custom_vehicle_run)
    as (_ & Hmass & _).
  exact Hmass.
Defined.

(** X22: the three prompt sequences fail only by running out of input: if
    one of them raises, the exception is [EOFError]; in particular the
    divisions by 100 in [get_system_parameters] never raise. *)
Theorem prompts_fail_only_at_end_of_input (stdin : list line) (e : exn) :
  (user_interface.get_system_parameters stdin = Raise e -> e = EOFError)
  /\ (user_interface.get_driving_conditions stdin = Raise e -> e = EOFError)
  /\ (user_interface._get_custom_vehicle stdin = Raise e -> e = EOFError).
Proof.
  split; [ | split].
  - unfold user_interface.get_system_parameters, io_bind, io_lift, io_ret.
    destruct (user_interface.get_user_input _ _ _ stdin)
      as [[efficiency stdin1] | e1] eqn:E1.
    + destruct (user_interface.get_user_input _ _ _ stdin1)
        as [[usable stdin2] | e2] eqn:E2.
      * rewrite !py_truediv_100. discriminate.
      * intros [= <-]. exact (get_user_input_raise _ _ _ _ _ E2).
    + intros [= <-]. exact (get_user_input_raise _ _ _ _ _ E1).
  - unfold user_interface.get_driving_conditions, io_bind, io_ret.
    destruct (user_interface.get_user_input _ _ _ stdin)
      as [[speed stdin1] | e1] eqn:E1.
    + destruct (user_interface.get_user_input _ _ _ stdin1)
        as [[slope stdin2] | e2] eqn:E2; [discriminate | ].
      intros [= <-]. exact (get_user_input_raise _ _ _ _ _ E2).
    + intros [= <-]. exact (get_user_input_raise _ _ _ _ _ E1).
  - unfold user_interface._get_custom_vehicle, io_bind, io_ret.
    repeat match goal with
    | |- context [user_interface.get_user_input ?a ?b ?c ?l] =>
        let E := fresh "E" in
        destruct (user_interface.get_user_input a b c l) as [[? ?] | ?] eqn:E;
          [ | intros [= <-]; exact (get_user_input_raise _ _ _ _ _ E)]
    end.
    discriminate.
Qed.

Lemma prompts_fail_only_at_end_of_input_witness :
  user_interface.get_system_parameters [Number (Fin 85)] = Raise EOFError
  /\ EOFError = EOFError.
Proof.
  assert (E : user_interface.get_system_parameters [Number (Fin 85)]
              = Raise EOFError).
  { unfold user_interface.get_system_parameters, io_bind, io_lift, io_ret.
    rewrite get_user_input_step, accepted_in_range by lra. reflexivity. }
  split; [exact E | ].
  destruct (prompts_fail_only_at_end_of_input [Number (Fin 85)] EOFError)
    as (Hsys & _).
  exact (Hsys E).
Defined.

(** X23: pressing Enter at a prompt with a default returns the default, and
    the defaults agree with the reference data: the system settings are
    [EFFICIENCY_DRIVETRAIN] and [BATTERY_USABLE_PERCENT], and a custom
    vehicle left at its defaults has the drag coefficient, frontal area and
    rolling resistance of the compact preset. *)
Theorem prompt_defaults_match_reference_data :
  (forall rest,
      user_interface.get_system_parameters (Blank :: Blank :: rest)
      = Ok (mk_system (Fin vehicle_data.EFFICIENCY_DRIVETRAIN)
              (Fin vehicle_data.BATTERY_USABLE_PERCENT), rest))
  /\ (forall battery mass rest,
        10 <= battery <= 200 -> 800 <= mass <= 3000 ->
        user_interface._get_custom_vehicle
          (Number (Fin battery) :: Number (Fin mass)
             :: Blank :: Blank :: Blank :: rest)
        = Ok (mk_custom (Fin battery) (Fin mass)
                (Fin (vehicle_data.drag_coefficient vehicle_data.COMPACT_EV))
                (Fin (vehicle_data.frontal_area vehicle_data.COMPACT_EV))
                (Fin (vehicle_data.rolling_resistance vehicle_data.COMPACT_EV)),
              rest)).
Proof.
  split.
  - intros rest.
    unfold user_interface.get_system_parameters, io_bind, io_lift, io_ret.
    cbn [user_interface.get_user_input]. rewrite !py_truediv_100.
    unfold vehicle_data.EFFICIENCY_DRIVETRAIN, vehicle_data.BATTERY_USABLE_PERCENT.
    do 3 f_equal; f_equal; lra.
  - intros battery mass rest Hb Hm.
    unfold user_interface._get_custom_vehicle, io_bind, io_ret.
    rewrite get_user_input_step, accepted_in_range by assumption.
    rewrite get_user_input_step, accepted_in_range by assumption.
    reflexivity.
Qed.

Lemma prompt_defaults_match_reference_data_witness :
  (10 <= 60 <= 200 /\ 800 <= 1700 <= 3000)
  /\ user_interface._get_custom_vehicle
       [Number (Fin 60); Number (Fin 1700); Blank; Blank; Blank]
     = Ok (mk_custom (Fin 60) (Fin 1700)
             (Fin (vehicle_data.drag_coefficient vehicle_data.COMPACT_EV))
             (Fin (vehicle_data.frontal_area vehicle_data.COMPACT_EV))
             (Fin (vehicle_data.rolling_resistance vehicle_data.COMPACT_EV)),
           []).
Proof.
  destruct prompt_defaults_match_reference_data as [_ Hcustom].
  split; [lra | apply Hcustom; lra].
Defined.

(** ** user_interface.py: the menus *)

Lemma ask_continue_step (response : string) (rest : list string) :
  user_interface.ask_continue (response :: rest)
  = match user_interface.answer response with
    | Some b => Ok (b, rest)
    | None => user_interface.ask_continue rest
    end.
Proof.
  cbn [user_interface.ask_continue]. unfold user_interface.answer.
  destruct (member (lower response) ["yes"; "y"]%string); [reflexivity | ].
  destruct (member (lower response) ["no"; "n"]%string); reflexivity.
Qed.

(** X24: [ask_continue] is decided by the first line that, in lower case,
    is [yes], [y], [no] or [n]: it returns [True] for the first two and
    [False] for the others, skips every line before it and leaves the lines
    after it unread; when no line is an answer it fails with [EOFError]. *)
Theorem ask_continue_first_answer (stdin : list string) :
  (forall b rest,
      user_interface.ask_continue stdin = Ok (b, rest)
      <-> exists skipped response,
            stdin = skipped ++ response :: rest
            /\ Forall (fun r => user_interface.answer r = None) skipped
            /\ user_interface.answer response = Some b)
  /\ (forall e,
        user_interface.ask_continue stdin = Raise e
        <-> e = EOFError
            /\ Forall (fun r => user_interface.answer r = None) stdin).
Proof.
  induction stdin as [ | r stdin [IHok IHraise]].
  - split.
    + intros b rest. cbn. split; [discriminate | ].
      intros (skipped & u & E & _). destruct skipped; discriminate.
    + intros e. cbn. split.
      * intros [= <-]. split; [reflexivity | constructor].
      * intros [-> _]. reflexivity.
  - split.
    + intros b rest. rewrite ask_continue_step.
      destruct (user_interface.answer r) as [b0 | ] eqn:Hr.
      * split.
        -- intros [= <- <-]. exists [], r.
           repeat split; [constructor | exact Hr].
        -- intros (skipped & u & E & Hsk & Hu).
           destruct skipped as [ | r' skipped].
           ++ cbn in E. injection E as <- <-. congruence.
           ++ cbn in E. injection E as <- _.
              inversion Hsk as [ | ? ? Hhead _]. congruence.
      * rewrite IHok. split.
        -- intros (skipped & u & -> & Hsk & Hu). exists (r :: skipped), u.
           repeat split; [constructor; assumption | assumption].
        -- intros (skipped & u & E & Hsk & Hu).
           destruct skipped as [ | r' skipped].
           ++ cbn in E. injection E as <- _. congruence.
           ++ cbn in E. injection E as <- ->. exists skipped, u.
              inversion Hsk as [ | ? ? _ Htail]. repeat split; assumption.
    + intros e. rewrite ask_continue_step.
      destruct (user_interface.answer r) as [b0 | ] eqn:Hr.
      * split; [discriminate | ].
        intros [_ Hall]. inversion Hall as [ | ? ? Hhead _]. congruence.
      * rewrite IHraise. split.
        -- intros [-> Hall]. split; [reflexivity | constructor; assumption].
        -- intros [-> Hall]. inversion Hall. split; [reflexivity | assumption].
Qed.

Lemma ask_continue_first_answer_witness :
  user_interface.ask_continue ["maybe"; ""; "No"; "yes"]%string
  = Ok (false, ["yes"%string])
  /\ user_interface.ask_continue ["maybe"; "yes please"]%string = Raise EOFError.
Proof.
  split.
  - apply (ask_continue_first_answer ["maybe"; ""; "No"; "yes"]%string).
    exists ["maybe"; ""]%string, "No"%string.
    split; [reflexivity | split; [repeat constructor | reflexivity]].
  - apply (ask_continue_first_answer ["maybe"; "yes please"]%string).
    split; [reflexivity | repeat constructor].
Defined.

(** Two inputs that agree line by line up to the case of their letters. *)
Lemma answer_case (r1 r2 : string) :
  lower r1 = lower r2 -> user_interface.answer r1 = user_interface.answer r2.
Proof. unfold user_interface.answer. intros ->. reflexivity. Qed.

(** X25: [ask_continue] ignores the case of the letters: on two inputs that
    agree line by line once lowered it gives the same answer and leaves
    remainders that agree in the same way, or fails on both. *)
Theorem ask_continue_case_insensitive (stdin1 stdin2 : list string) :
  Forall2 (fun r1 r2 => lower r1 = lower r2) stdin1 stdin2 ->
  match user_interface.ask_continue stdin1, user_interface.ask_continue stdin2 with
  | Ok (b1, rest1), Ok (b2, rest2) =>
      b1 = b2 /\ Forall2 (fun r1 r2 => lower r1 = lower r2) rest1 rest2
  | Raise e1, Raise e2 => e1 = e2
  | _, _ => False
  end.
Proof.
  induction 1 as [ | r1 r2 stdin1 stdin2 Hr Hrest IH].
  - cbn. reflexivity.
  - rewrite !ask_continue_step, (answer_case r1 r2 Hr).
    destruct (user_interface.answer r2); [ | exact IH].
    split; [reflexivity | exact Hrest].
Qed.

Lemma ask_continue_case_insensitive_witness :
  Forall2 (fun r1 r2 => lower r1 = lower r2)
    ["Dunno"; "YES"; "n"]%string ["dunno"; "Yes"; "N"]%string
  /\ match user_interface.ask_continue ["Dunno"; "YES"; "n"]%string,
           user_interface.ask_continue ["dunno"; "Yes"; "N"]%string with
     | Ok (b1, rest1), Ok (b2, rest2) =>
         b1 = b2 /\ Forall2 (fun r1 r2 => lower r1 = lower r2) rest1 rest2
     | Raise e1, Raise e2 => e1 = e2
     | _, _ => False
     end.
Proof.
  assert (H : Forall2 (fun r1 r2 => lower r1 = lower r2)
                ["Dunno"; "YES"; "n"]%string ["dunno"; "Yes"; "N"]%string)
    by (repeat constructor).
  exact (conj H (ask_continue_case_insensitive _ _ H)).
Defined.

Lemma get_preset_vehicle_step (choice : string) (rest : list string) :
  user_interface._get_preset_vehicle (choice :: rest)
  = if String.eqb choice "1" then Ok (vehicle_data.COMPACT_EV, rest)
    else if String.eqb choice "2" then Ok (vehicle_data.SUV_EV, rest)
    else if String.eqb choice "3" then Ok (vehicle_data.SPORTS_EV, rest)
    else user_interface._get_preset_vehicle rest.
Proof. reflexivity. Qed.

Lemma preset_within_custom_bounds (v : vehicle_data.vehicle) :
  In v [vehicle_data.COMPACT_EV; vehicle_data.SUV_EV; vehicle_data.SPORTS_EV] ->
  10 <= vehicle_data.battery_capacity v <= 200
  /\ 800 <= vehicle_data.mass v <= 3000
  /\ 0.15 <= vehicle_data.drag_coefficient v <= 0.50
  /\ 1.5 <= vehicle_data.frontal_area v <= 4.0
  /\ 0.005 <= vehicle_data.rolling_resistance v <= 0.020.
Proof.
  intros [<- | [<- | [<- | []]]]; cbn; lra.
Qed.

Lemma get_preset_vehicle_inv (stdin rest : list string) (v : vehicle_data.vehicle) :
  user_interface._get_preset_vehicle stdin = Ok (v, rest) ->
  In v [vehicle_data.COMPACT_EV; vehicle_data.SUV_EV; vehicle_data.SPORTS_EV]
  /\ exists skipped choice,
       stdin = skipped ++ choice :: rest
       /\ In choice ["1"; "2"; "3"]%string
       /\ Forall (fun c => ~ In c ["1"; "2"; "3"]%string) skipped.
Proof.
  induction stdin as [ | choice stdin IH]; [discriminate | ].
  rewrite get_preset_vehicle_step.
  destruct (String.eqb choice "1") eqn:E1.
  { intros [= <- <-]. apply String.eqb_eq in E1 as ->.
    split; [now left | exists [], "1"%string; cbn; auto]. }
  destruct (String.eqb choice "2") eqn:E2.
  { intros [= <- <-]. apply String.eqb_eq in E2 as ->.
    split; [right; now left | exists [], "2"%string; cbn; auto]. }
  destruct (String.eqb choice "3") eqn:E3.
  { intros [= <- <-]. apply String.eqb_eq in E3 as ->.
    split; [right; right; now left | exists [], "3"%string; cbn; auto 6]. }
  intros E. destruct (IH E) as (Hin & skipped & c & -> & Hc & Hsk).
  split; [exact Hin | ].
  exists (choice :: skipped), c. repeat split; try assumption.
  constructor; [ | assumption].
  apply String.eqb_neq in E1, E2, E3.
  intros [H | [H | [H | []]]]; congruence.
Qed.

(** X26: the preset menu returns only on a line that is exactly [1], [2] or
    [3], skipping every other line; the vehicle it returns is one of the
    three presets, and each of them has every field within the bounds the
    custom prompts enforce, so strictly positive.  It fails only with
    [EOFError]. *)
Theorem get_preset_vehicle_returns_valid_preset (stdin : list string) :
  (forall v rest,
      user_interface._get_preset_vehicle stdin = Ok (v, rest) ->
      In v [vehicle_data.COMPACT_EV; vehicle_data.SUV_EV; vehicle_data.SPORTS_EV]
      /\ (exists skipped choice,
             stdin = skipped ++ choice :: rest
             /\ In choice ["1"; "2"; "3"]%string
             /\ Forall (fun c => ~ In c ["1"; "2"; "3"]%string) skipped)
      /\ 10 <= vehicle_data.battery_capacity v <= 200
      /\ 800 <= vehicle_data.mass v <= 3000
      /\ 0.15 <= vehicle_data.drag_coefficient v <= 0.50
      /\ 1.5 <= vehicle_data.frontal_area v <= 4.0
      /\ 0.005 <= vehicle_data.rolling_resistance v <= 0.020)
  /\ (forall e, user_interface._get_preset_vehicle stdin = Raise e -> e = EOFError).
Proof.
  split.
  - intros v rest E. apply get_preset_vehicle_inv in E as [Hin Hdec].
    split; [exact Hin | split; [exact Hdec | ]].
    now apply preset_within_custom_bounds.
  - induction stdin as [ | choice stdin IH]; intros e.
    + cbn. intros [= <-]. reflexivity.
    + rewrite get_preset_vehicle_step.
      destruct (String.eqb choice "1"); [discriminate | ].
      destruct (String.eqb choice "2"); [discriminate | ].
      destruct (String.eqb choice "3"); [discriminate | apply IH].
Qed.

Lemma get_preset_vehicle_returns_valid_preset_witness :
  user_interface._get_preset_vehicle ["4"; " 1"; "2"; "3"]%string
  = Ok (vehicle_data.SUV_EV, ["3"%string])
  /\ 800 <= vehicle_data.mass vehicle_data.SUV_EV <= 3000.
Proof.
  assert (E : user_interface._get_preset_vehicle ["4"; " 1"; "2"; "3"]%string
              = Ok (vehicle_data.SUV_EV, ["3"%string])) by reflexivity.
  split; [exact E | ].
  destruct (get_preset_vehicle_returns_valid_preset
              ["4"; " 1"; "2"; "3"]%string) as [Hok _].
  destruct (Hok _ _ E) as (_ & _ & _ & Hmass & _).
  exact Hmass.
Defined.

(** ** From the prompts to the pipeline *)

Lemma driving_conditions_finite (stdin rest : list line) (speed slope : R) :
  user_interface.get_driving_conditions stdin
  = Ok (mk_conditions (Fin speed) (Fin slope), rest) ->
  10 <= speed <= 200 /\ -15 <= slope <= 15.
Proof.
  unfold user_interface.get_driving_conditions, io_bind, io_ret.
  destruct (user_interface.get_user_input _ _ _ stdin)
    as [[v1 stdin1] | ] eqn:E1; [ | discriminate].
  destruct (user_interface.get_user_input _ _ _ stdin1)
    as [[v2 stdin2] | ] eqn:E2; [ | discriminate].
  intros [= -> -> _].
  apply get_user_input_accepts in E1; [ | intros d; discriminate].
  apply get_user_input_accepts in E2; [ | intros d [= <-]; cbn; lra].
  destruct E1 as [E1 | E1]; [discriminate | ].
  destruct E2 as [E2 | E2]; [discriminate | ].
  cbn in E1, E2. split; assumption.
Qed.

Lemma system_parameters_finite (stdin rest : list line) (efficiency usable : R) :
  user_interface.get_system_parameters stdin
  = Ok (mk_system (Fin efficiency) (Fin usable), rest) ->
  0.70 <= efficiency <= 0.98 /\ 0.70 <= usable <= 1.00.
Proof.
  intros E. apply get_system_parameters_accepts in E as [[E1 | E1] [E2 | E2]];
    try discriminate.
  cbn in E1, E2. split; assumption.
Qed.

Lemma custom_vehicle_finite (stdin rest : list line)
    (battery mass cd area crr : R) :
  user_interface._get_custom_vehicle stdin
  = Ok (mk_custom (Fin battery) (Fin mass) (Fin cd) (Fin area) (Fin crr), rest) ->
  10 <= battery <= 200 /\ 800 <= mass <= 3000 /\ 0.15 <= cd <= 0.50
  /\ 1.5 <= area <= 4.0 /\ 0.005 <= crr <= 0.020.
Proof.
  unfold user_interface._get_custom_vehicle, io_bind, io_ret.
  destruct (user_interface.get_user_input _ _ _ stdin)
    as [[v1 stdin1] | ] eqn:E1; [ | discriminate].
  destruct (user_interface.get_user_input _ _ _ stdin1)
    as [[v2 stdin2] | ] eqn:E2; [ | discriminate].
  destruct (user_interface.get_user_input _ _ _ stdin2)
    as [[v3 stdin3] | ] eqn:E3; [ | discriminate].
  destruct (user_interface.get_user_input _ _ _ stdin3)
    as [[v4 stdin4] | ] eqn:E4; [ | discriminate].
  destruct (user_interface.get_user_input _ _ _ stdin4)
    as [[v5 stdin5] | ] eqn:E5; [ | discriminate].
  intros [= -> -> -> -> -> _].
  apply get_user_input_accepts in E1; [ | intros d; discriminate].
  apply get_user_input_accepts in E2; [ | intros d; discriminate].
  apply get_user_input_accepts in E3; [ | intros d [= <-]; cbn; lra].
  apply get_user_input_accepts in E4; [ | intros d [= <-]; cbn; lra].
  apply get_user_input_accepts in E5; [ | intros d [= <-]; cbn; lra].
  destruct E1 as [E1 | E1]; [discriminate | ].
  destruct E2 as [E2 | E2]; [discriminate | ].
  destruct E3 as [E3 | E3]; [discriminate | ].
  destruct E4 as [E4 | E4]; [discriminate | ].
  destruct E5 as [E5 | E5]; [discriminate | ].
  cbn in E1, E2, E3, E4, E5. repeat split; lra.
Qed.

(** X27: a session with a preset vehicle.  For the vehicle the preset menu
    returns, and driving conditions and system settings the prompts return
    as finite numbers, the pipeline does not raise on a level or rising road:
    it returns a positive energy per km and a positive range. *)
Theorem preset_session_positive_range
    (menu menu_rest : list string) (v : vehicle_data.vehicle)
    (stdin1 rest1 stdin2 rest2 : list line) (speed slope efficiency usable : R) :
  user_interface._get_preset_vehicle menu = Ok (v, menu_rest) ->
  user_interface.get_driving_conditions stdin1
  = Ok (mk_conditions (Fin speed) (Fin slope), rest1) ->
  user_interface.get_system_parameters stdin2
  = Ok (mk_system (Fin efficiency) (Fin usable), rest2) ->
  0 <= slope ->
  exists l,
    main.pipeline v (mk_conditions speed slope) (mk_system efficiency usable)
    = Ok l
    /\ 0 < main.total_force l
    /\ 0 < main.energy_per_km l
    /\ 0 < main.range_km l.
Proof.
  intros Ev Ec Es Hslope.
  apply get_preset_vehicle_inv in Ev as [Hin _].
  apply preset_within_custom_bounds in Hin as (Hb & Hm & HCd & HA & HCrr).
  apply driving_conditions_finite in Ec as [Hspeed _].
  apply system_parameters_finite in Es as [Heff Hus].
  destruct (positive_inputs_positive_range v (mk_conditions speed slope)
              (mk_system efficiency usable))
    as (l & E & _ & _ & _ & Ht & _ & _ & Hepk & _ & Hr);
    try (cbn [speed_kmh slope_percent drivetrain_efficiency
              battery_usable_percent]; lra).
  exists l. repeat split; assumption.
Qed.

Lemma system_parameters_run :
  user_interface.get_system_parameters [Number (Fin 92); Blank]
  = Ok (mk_system (Fin (92 / 100)) (Fin (90 / 100)), []).
Proof.
  unfold user_interface.get_system_parameters, io_bind, io_lift, io_ret.
  rewrite get_user_input_step, accepted_in_range by lra.
  cbn [user_interface.get_user_input]. rewrite !py_truediv_100. reflexivity.
Qed.

Lemma preset_session_positive_range_witness :
  exists l,
    main.pipeline vehicle_data.SPORTS_EV (mk_conditions 100 0)
      (mk_system (92 / 100) (90 / 100)) = Ok l
    /\ 0 < main.total_force l
    /\ 0 < main.energy_per_km l
    /\ 0 < main.range_km l.
Proof.
  apply (preset_session_positive_range ["x"; "3"]%string [] vehicle_data.SPORTS_EV
           [Blank; Number (Fin 100); Blank] [] [Number (Fin 92); Blank] []).
  - reflexivity.
  - exact get_driving_conditions_run.
  - exact system_parameters_run.
  - lra.
Defined.

(** X28: a session with a custom vehicle.  For vehicle fields, driving
    conditions and system settings the prompts return as finite numbers, the
    pipeline does not raise on a level or rising road: it returns a positive
    energy per km and a positive range. *)
Theorem custom_session_positive_range
    (stdin0 rest0 stdin1 rest1 stdin2 rest2 : list line)
    (battery mass cd area crr speed slope efficiency usable : R) :
  user_interface._get_custom_vehicle stdin0
  = Ok (mk_custom (Fin battery) (Fin mass) (Fin cd) (Fin area) (Fin crr), rest0) ->
  user_interface.get_driving_conditions stdin1
  = Ok (mk_conditions (Fin speed) (Fin slope), rest1) ->
  user_interface.get_system_parameters stdin2
  = Ok (mk_system (Fin efficiency) (Fin usable), rest2) ->
  0 <= slope ->
  exists l,
    main.pipeline (vehicle_data.mk_vehicle mass cd area crr battery)
      (mk_conditions speed slope) (mk_system efficiency usable) = Ok l
    /\ 0 < main.total_force l
    /\ 0 < main.energy_per_km l
    /\ 0 < main.range_km l.
Proof.
  intros Ev Ec Es Hslope.
  apply custom_vehicle_finite in Ev as (Hb & Hm & HCd & HA & HCrr).
  apply driving_conditions_finite in Ec as [Hspeed _].
  apply system_parameters_finite in Es as [Heff Hus].
  destruct (positive_inputs_positive_range
              (vehicle_data.mk_vehicle mass cd area crr battery)
              (mk_conditions speed slope) (mk_system efficiency usable))
    as (l & E & _ & _ & _ & Ht & _ & _ & Hepk & _ & Hr);
    try (cbn [speed_kmh slope_percent drivetrain_efficiency
              battery_usable_percent vehicle_data.mass
              vehicle_data.drag_coefficient vehicle_data.frontal_area
              vehicle_data.rolling_resistance vehicle_data.battery_capacity];
         lra).
  exists l. repeat split; assumption.
Qed.

Lemma custom_session_positive_range_witness :
  exists l,
    main.pipeline (vehicle_data.mk_vehicle 1700 0.28 2.2 0.010 60)
      (mk_conditions 100 0) (mk_system (92 / 100) (90 / 100)) = Ok l
    /\ 0 < main.total_force l
    /\ 0 < main.energy_per_km l
    /\ 0 < main.range_km l.
Proof.
  apply (custom_session_positive_range
           [Number (Fin 60); Number (Fin 5000); Number (Fin 1700);
            Blank; Blank; Blank] []
           [Blank; Number (Fin 100); Blank] [] [Number (Fin 92); Blank] []).
  - exact get_custom_vehicle_run.
  - exact get_driving_conditions_run.
  - exact system_parameters_run.
  - lra.
Defined.
